(** * paolo.fin: a shallow embedding of [main.py]

    The bot turns free-form messages into rows of a remote ledger (a Google
    sheet), keeps a short per-user context, caches the ledger for five
    minutes and answers searches over the cached rows.  This file embeds the
    functions of [main.py] that the specification's properties are about and
    proves (or refutes) those properties.

    Conventions.
    - A Python [str] is the list of its code points ([pystr]); literals are
      written [u "..."] and decoded from UTF-8.
    - A Python value that arrives from JSON is a [pyval].
    - Module-level globals ([SHEETS_CACHE], [USER_CONTEXT], ...) are fields of
      the [World] record, together with the remote sheet, the context file and
      the log of remote calls and chat replies.
    - A function that raises returns [Raise e]; the world it leaves behind
      keeps every mutation made before the exception. *)

From Stdlib Require Import ZArith NArith Ascii String List Bool Lia Floats.
From stdpp Require Import base option list gmap.
Import ListNotations.

#[local] Set Warnings "-register-all".

Local Open Scope N_scope.

(** ** Python strings *)

Abbreviation pystr := (list N).

(** UTF-8 decoding of a byte sequence (well-formed input is assumed: the
    literals of this file). *)
Fixpoint utf8_decode (bs : list N) : pystr :=
  match bs with
  | [] => []
  | b0 :: r0 =>
      if b0 <? 128 then b0 :: utf8_decode r0
      else if b0 <? 224 then
        match r0 with
        | b1 :: r1 => ((b0 - 192) * 64 + (b1 - 128)) :: utf8_decode r1
        | _ => []
        end
      else if b0 <? 240 then
        match r0 with
        | b1 :: b2 :: r2 =>
            ((b0 - 224) * 4096 + (b1 - 128) * 64 + (b2 - 128)) :: utf8_decode r2
        | _ => []
        end
      else
        match r0 with
        | b1 :: b2 :: b3 :: r3 =>
            ((b0 - 240) * 262144 + (b1 - 128) * 4096 + (b2 - 128) * 64 + (b3 - 128))
              :: utf8_decode r3
        | _ => []
        end
  end.

Definition u (s : string) : pystr :=
  utf8_decode (map N_of_ascii (list_ascii_of_string s)).

(** [str.lower] and the upper-casing of a single character.  Only the Basic
    Latin and Cyrillic blocks change case in this model; every other code
    point is left as it is. *)
Definition lower_char (c : N) : N :=
  if (65 <=? c) && (c <=? 90) then c + 32
  else if (1040 <=? c) && (c <=? 1071) then c + 32
  else if (1024 <=? c) && (c <=? 1039) then c + 80
  else c.

Definition upper_char (c : N) : N :=
  if (97 <=? c) && (c <=? 122) then c - 32
  else if (1072 <=? c) && (c <=? 1103) then c - 32
  else if (1104 <=? c) && (c <=? 1119) then c - 80
  else c.

Definition lower (s : pystr) : pystr := map lower_char s.

(** [str.capitalize]: first character upper-cased, the rest lower-cased. *)
Definition capitalize (s : pystr) : pystr :=
  match s with
  | [] => []
  | c :: r => upper_char c :: lower r
  end.

Definition pystr_eqb (a b : pystr) : bool := bool_decide (a = b).

Fixpoint startswith (s p : pystr) : bool :=
  match p, s with
  | [], _ => true
  | _ :: _, [] => false
  | c :: p', d :: s' => (c =? d) && startswith s' p'
  end.

Definition endswith (s p : pystr) : bool := startswith (rev s) (rev p).

(** [s[:-k]] for [k > 0]. *)
Definition drop_last (k : nat) (s : pystr) : pystr := take (length s - k) s.

(** [s[i:-k]] for [k > 0]. *)
Definition slice_between (i k : nat) (s : pystr) : pystr :=
  take (length s - k - i) (drop i s).

(** [sub in s]. *)
Fixpoint contains (sub s : pystr) : bool :=
  startswith s sub ||
  match s with
  | [] => false
  | _ :: s' => contains sub s'
  end.

(** [s.split(sep)] for a one-character separator. *)
Fixpoint split_on (sep : N) (s : pystr) : list pystr :=
  match s with
  | [] => [[]]
  | c :: s' =>
      if c =? sep then [] :: split_on sep s'
      else match split_on sep s' with
           | [] => [[c]]
           | p :: ps => (c :: p) :: ps
           end
  end.

(** [sep.join(parts)]. *)
Fixpoint join (sep : pystr) (parts : list pystr) : pystr :=
  match parts with
  | [] => []
  | [p] => p
  | p :: ps => p ++ sep ++ join sep ps
  end.

(** [s.replace(pat, "")] for a non-empty [pat]: every occurrence, left to
    right, without overlaps.  [skip] counts the characters of a match that are
    still to be dropped. *)
Fixpoint remove_all_from (skip : nat) (pat s : pystr) : pystr :=
  match s with
  | [] => []
  | c :: s' =>
      match skip with
      | S k => remove_all_from k pat s'
      | O => if startswith s pat then remove_all_from (length pat - 1) pat s'
             else c :: remove_all_from 0 pat s'
      end
  end.

Definition remove_all (pat s : pystr) : pystr := remove_all_from 0 pat s.

(** The code points for which [str.isspace] holds. *)
Definition is_space (c : N) : bool :=
  ((9 <=? c) && (c <=? 13)) || ((28 <=? c) && (c <=? 32)) || (c =? 133) || (c =? 160)
  || (c =? 5760) || ((8192 <=? c) && (c <=? 8202)) || (c =? 8232) || (c =? 8233)
  || (c =? 8239) || (c =? 8287) || (c =? 12288).

Fixpoint lstrip (s : pystr) : pystr :=
  match s with
  | c :: s' => if is_space c then lstrip s' else s
  | [] => []
  end.

Definition strip (s : pystr) : pystr := rev (lstrip (rev (lstrip s))).

(** ** Name normalisation ([normalize_name]) *)

(** The dictionary literal of [normalize_name]. *)
Definition mappings : list (pystr * pystr) :=
  [ (u "интигаму", u "Интигам"); (u "интигама", u "Интигам");
    (u "балтики", u "Балтика"); (u "балтике", u "Балтика"); (u "балтику", u "Балтика");
    (u "петрову", u "Петров"); (u "петрова", u "Петров");
    (u "рустаму", u "Рустам"); (u "рустама", u "Рустам") ].

(** [d.get(k)] on a dictionary literal. *)
Fixpoint dict_get {V} (d : list (pystr * V)) (k : pystr) : option V :=
  match d with
  | [] => None
  | (k', v) :: d' => if pystr_eqb k' k then Some v else dict_get d' k
  end.

Definition case_endings : list pystr := [u "у"; u "а"; u "е"; u "ом"; u "ым"].

Definition normalize_name (name : pystr) : pystr :=
  let name_lower := lower name in
  if existsb (endswith name_lower) case_endings then
    let base :=
      if negb (endswith name_lower (u "ом") || endswith name_lower (u "ым"))
      then drop_last 1 name
      else drop_last 2 name in
    capitalize base
  else
    default (capitalize name) (dict_get mappings name_lower).

(** ** Python values *)

(** What [json.loads] can return, and what the handlers pass around.  A
    dictionary keeps its items in insertion order, with distinct keys. *)
Inductive pyval :=
| PNone
| PBool (b : bool)
| PInt (z : Z)
| PFloat (f : float)
| PStr (s : pystr)
| PList (l : list pyval)
| PDict (d : list (pystr * pyval)).

Inductive exn :=
| KeyError | TypeError | ValueError | IndexError | AttributeError
| JSONDecodeError | OSError | APIError.

Inductive Res (A : Type) :=
| Ok (a : A)
| Raise (e : exn).
Arguments Ok {A} a.
Arguments Raise {A} e.

Definition and_then {A B} (r : Res A) (k : A -> Res B) : Res B :=
  match r with
  | Ok a => k a
  | Raise e => Raise e
  end.

Notation "'let?' x := r 'in' k" := (and_then r (fun x => k))
  (at level 10, x name, r at level 100, k at level 200).

(** [v == "s"] for a string literal. *)
Definition is_str (v : pyval) (s : pystr) : bool :=
  match v with
  | PStr s' => pystr_eqb s' s
  | _ => false
  end.

(** [v[k]] for a string key. *)
Definition py_getitem (v : pyval) (k : pystr) : Res pyval :=
  match v with
  | PDict d => match dict_get d k with Some x => Ok x | None => Raise KeyError end
  | _ => Raise TypeError
  end.

(** [v.get(k, dflt)]. *)
Definition py_get (v : pyval) (k : pystr) (dflt : pyval) : Res pyval :=
  match v with
  | PDict d => Ok (default dflt (dict_get d k))
  | _ => Raise AttributeError
  end.

(** Truth value of an object, as [if x:] tests it. *)
Definition py_truthy (v : pyval) : bool :=
  match v with
  | PNone => false
  | PBool b => b
  | PInt z => negb (z =? 0)%Z
  | PFloat f => negb (f =? 0)%float
  | PStr s => negb (bool_decide (s = []))
  | PList l => match l with [] => false | _ => true end
  | PDict d => match d with [] => false | _ => true end
  end.

(** The confirmation threshold: the double nearest to 0.7, as Python reads
    the literal [0.7]. *)
Definition CONFIDENCE_THRESHOLD : float := 0x1.6666666666666p-1%float.

(** [confidence < 0.7].  An [int] is compared by value (exactly), so it is
    below the threshold when it is at most 0; [bool] is an [int]; anything
    else is not ordered against a [float]. *)
Definition below_threshold (confidence : pyval) : Res bool :=
  match confidence with
  | PFloat f => Ok (f <? CONFIDENCE_THRESHOLD)%float
  | PInt z => Ok (z <=? 0)%Z
  | PBool b => Ok (negb b)
  | _ => Raise TypeError
  end.

(** ** The ledger, the globals and the outside world *)

(** One row of the sheet, in its fixed column order
    [Дата, Тип операции, Категория, Описание/Получатель, Сумма, Комментарий].
    Row 1 of the sheet is the header; [get_all_records] returns the rows below
    it, keyed by these columns. *)
Record Row := {
  c_date : pyval;
  c_operation_type : pyval;
  c_category : pyval;
  c_description : pyval;
  c_amount : pyval;
  c_comment : pyval
}.

(** An entry of [USER_LAST_OPERATIONS]; its ['type'] is always ['finance']. *)
Record LastOperation := {
  op_data : pyval;
  op_row : nat;
  op_timestamp : Z
}.

(** Calls that leave the process: the sheet (gspread), the language model,
    the transcription service and the context file. *)
Inductive call :=
| append_row (r : Row)
| get_all_records
| get_all_values
| delete_rows (start_index : nat) (end_index : option nat)
| chat_completion (context_lines : list pystr) (text : pystr)
| transcription
| write_context_file.

(** The messages the bot sends to the chat, one constructor per message
    template of [main.py]. *)
Inductive reply :=
| AccessDenied
| Welcome
| Analyzing
| ConfirmPrompt (analysis : pyval)
| Recorded (analysis : pyval)
| WriteFailed
| Clarify (message : pyval) (suggestions : list pyval)
| SearchHelp
| Searching (query : pystr)
| NoData
| NotFound (query : pystr)
| Found (text : pystr)
| SearchFailed
| VoiceSearchHelp
| QuickSearchMenu
| Progress (what : pystr)
| Report (text : pystr)
| ReportFailed (what : pystr)
| EditHint
| LastDeleted
| DeleteFailed
| DeleteError
| ClearPrompt
| Cleared
| ClearFailed
| Cancelled
| UnknownConfirmation
| NotImplemented
| CallbackFailed
| Recognizing
| Recognized (text : pystr)
| VoiceFailed.

Inductive event :=
| Called (c : call) (succeeded : bool)
| Replied (r : reply).

(** The state a handler runs in.  [outcomes] is the environment's plan for the
    calls to come: each call takes the next entry and succeeds when it is
    [true] (or when the plan has run out).  [now] is the clock in
    microseconds; [today] is [format_moscow_date()].

    [context_file] is what the file of the contexts holds when it is there
    and whole; [context_file_torn] tells that the file is there, but emptied
    or cut short by a write that failed.  [write_fails_at_open] is the
    environment's choice for a write of that file that fails: at [open],
    before the file is touched, or later, once [open] has emptied it. *)
Record World := {
  sheet : list Row;
  SHEETS_CACHE : option (list Row);
  CACHE_TIMESTAMP : option Z;
  USER_LAST_OPERATIONS : gmap (list N) LastOperation;
  USER_CONTEXT : gmap (list N) (list pystr);
  context_file : option (gmap (list N) (list pystr));
  context_file_torn : bool;
  write_fails_at_open : bool;
  ALLOWED_USERS : list pystr;
  now : Z;
  today : pystr;
  nlu_answer : list pystr -> pystr -> pystr;
  transcript : pystr;
  outcomes : list bool;
  log : list event
}.

(** [CACHE_TIMEOUT = timedelta(minutes=5)], in microseconds. *)
Definition CACHE_TIMEOUT : Z := 300000000.

(** ** Computations that mutate the world and may raise *)

Definition M (A : Type) : Type := World -> Res A * World.

Definition ret {A} (a : A) : M A := fun w => (Ok a, w).

Definition bind {A B} (m : M A) (k : A -> M B) : M B :=
  fun w =>
    match m w with
    | (Ok a, w') => k a w'
    | (Raise e, w') => (Raise e, w')
    end.

Definition raise {A} (e : exn) : M A := fun w => (Raise e, w).

(** [try: body / except Exception: handler]. *)
Definition try_except {A} (body : M A) (handler : exn -> M A) : M A :=
  fun w =>
    match body w with
    | (Ok a, w') => (Ok a, w')
    | (Raise e, w') => handler e w'
    end.

Definition lift {A} (r : Res A) : M A := fun w => (r, w).

Definition gets {A} (f : World -> A) : M A := fun w => (Ok (f w), w).

Definition modify (f : World -> World) : M unit := fun w => (Ok tt, f w).

Declare Scope py_scope.
Delimit Scope py_scope with py.
Notation "x <- m ;; k" := (bind m (fun x => k))
  (at level 100, m at next level, right associativity) : py_scope.
Notation "m ;;; k" := (bind m (fun _ => k))
  (at level 100, right associativity) : py_scope.
Local Open Scope py_scope.

Definition set_log (l : list event) (w : World) : World :=
  {| sheet := sheet w; SHEETS_CACHE := SHEETS_CACHE w;
     CACHE_TIMESTAMP := CACHE_TIMESTAMP w;
     USER_LAST_OPERATIONS := USER_LAST_OPERATIONS w; USER_CONTEXT := USER_CONTEXT w;
     context_file := context_file w; context_file_torn := context_file_torn w;
     write_fails_at_open := write_fails_at_open w; ALLOWED_USERS := ALLOWED_USERS w;
     now := now w; today := today w; nlu_answer := nlu_answer w;
     transcript := transcript w; outcomes := outcomes w; log := l |}.

Definition set_outcomes (o : list bool) (w : World) : World :=
  {| sheet := sheet w; SHEETS_CACHE := SHEETS_CACHE w;
     CACHE_TIMESTAMP := CACHE_TIMESTAMP w;
     USER_LAST_OPERATIONS := USER_LAST_OPERATIONS w; USER_CONTEXT := USER_CONTEXT w;
     context_file := context_file w; context_file_torn := context_file_torn w;
     write_fails_at_open := write_fails_at_open w; ALLOWED_USERS := ALLOWED_USERS w;
     now := now w; today := today w; nlu_answer := nlu_answer w;
     transcript := transcript w; outcomes := o; log := log w |}.

Definition set_sheet (s : list Row) (w : World) : World :=
  {| sheet := s; SHEETS_CACHE := SHEETS_CACHE w;
     CACHE_TIMESTAMP := CACHE_TIMESTAMP w;
     USER_LAST_OPERATIONS := USER_LAST_OPERATIONS w; USER_CONTEXT := USER_CONTEXT w;
     context_file := context_file w; context_file_torn := context_file_torn w;
     write_fails_at_open := write_fails_at_open w; ALLOWED_USERS := ALLOWED_USERS w;
     now := now w; today := today w; nlu_answer := nlu_answer w;
     transcript := transcript w; outcomes := outcomes w; log := log w |}.

Definition set_cache (c : option (list Row)) (t : option Z) (w : World) : World :=
  {| sheet := sheet w; SHEETS_CACHE := c; CACHE_TIMESTAMP := t;
     USER_LAST_OPERATIONS := USER_LAST_OPERATIONS w; USER_CONTEXT := USER_CONTEXT w;
     context_file := context_file w; context_file_torn := context_file_torn w;
     write_fails_at_open := write_fails_at_open w; ALLOWED_USERS := ALLOWED_USERS w;
     now := now w; today := today w; nlu_answer := nlu_answer w;
     transcript := transcript w; outcomes := outcomes w; log := log w |}.

Definition set_last_operations (m : gmap (list N) LastOperation) (w : World) : World :=
  {| sheet := sheet w; SHEETS_CACHE := SHEETS_CACHE w;
     CACHE_TIMESTAMP := CACHE_TIMESTAMP w;
     USER_LAST_OPERATIONS := m; USER_CONTEXT := USER_CONTEXT w;
     context_file := context_file w; context_file_torn := context_file_torn w;
     write_fails_at_open := write_fails_at_open w; ALLOWED_USERS := ALLOWED_USERS w;
     now := now w; today := today w; nlu_answer := nlu_answer w;
     transcript := transcript w; outcomes := outcomes w; log := log w |}.

Definition set_context (m : gmap (list N) (list pystr)) (w : World) : World :=
  {| sheet := sheet w; SHEETS_CACHE := SHEETS_CACHE w;
     CACHE_TIMESTAMP := CACHE_TIMESTAMP w;
     USER_LAST_OPERATIONS := USER_LAST_OPERATIONS w; USER_CONTEXT := m;
     context_file := context_file w; context_file_torn := context_file_torn w;
     write_fails_at_open := write_fails_at_open w; ALLOWED_USERS := ALLOWED_USERS w;
     now := now w; today := today w; nlu_answer := nlu_answer w;
     transcript := transcript w; outcomes := outcomes w; log := log w |}.

(** The file written anew, in full. *)
Definition set_context_file (f : option (gmap (list N) (list pystr))) (w : World) : World :=
  {| sheet := sheet w; SHEETS_CACHE := SHEETS_CACHE w;
     CACHE_TIMESTAMP := CACHE_TIMESTAMP w;
     USER_LAST_OPERATIONS := USER_LAST_OPERATIONS w; USER_CONTEXT := USER_CONTEXT w;
     context_file := f; context_file_torn := false;
     write_fails_at_open := write_fails_at_open w; ALLOWED_USERS := ALLOWED_USERS w;
     now := now w; today := today w; nlu_answer := nlu_answer w;
     transcript := transcript w; outcomes := outcomes w; log := log w |}.

(** The file emptied by [open(..., 'w')] and not written in full: what it
    held is lost. *)
Definition tear_context_file (w : World) : World :=
  {| sheet := sheet w; SHEETS_CACHE := SHEETS_CACHE w;
     CACHE_TIMESTAMP := CACHE_TIMESTAMP w;
     USER_LAST_OPERATIONS := USER_LAST_OPERATIONS w; USER_CONTEXT := USER_CONTEXT w;
     context_file := None; context_file_torn := true;
     write_fails_at_open := write_fails_at_open w; ALLOWED_USERS := ALLOWED_USERS w;
     now := now w; today := today w; nlu_answer := nlu_answer w;
     transcript := transcript w; outcomes := outcomes w; log := log w |}.

Definition set_now (t : Z) (w : World) : World :=
  {| sheet := sheet w; SHEETS_CACHE := SHEETS_CACHE w;
     CACHE_TIMESTAMP := CACHE_TIMESTAMP w;
     USER_LAST_OPERATIONS := USER_LAST_OPERATIONS w; USER_CONTEXT := USER_CONTEXT w;
     context_file := context_file w; context_file_torn := context_file_torn w;
     write_fails_at_open := write_fails_at_open w; ALLOWED_USERS := ALLOWED_USERS w;
     now := t; today := today w; nlu_answer := nlu_answer w;
     transcript := transcript w; outcomes := outcomes w; log := log w |}.

(** Sending a message to the chat. *)
Definition reply_text (r : reply) : M unit :=
  modify (fun w => set_log (log w ++ [Replied r]) w).

(** A call that leaves the process: it is logged with its outcome, takes the
    next entry of the plan and raises when that entry is [false]. *)
Definition next_outcome (plan : list bool) : bool :=
  match plan with
  | [] => true
  | o :: _ => o
  end.

Definition remote (c : call) (failure : exn) : M unit :=
  fun w =>
    let ok := next_outcome (outcomes w) in
    let w' := set_outcomes (tail (outcomes w)) (set_log (log w ++ [Called c ok]) w) in
    (if ok then Ok tt else Raise failure, w').

(** ** Library functions the bot relies on

    The Python builtins and the pandas operations below are not part of the
    repository; the development is parametric in them.  [JSONDecodeError] is
    the only exception [json_loads] is caught for separately. *)
Class Externals := {
  (** [json.loads(s)] *)
  json_loads : pystr -> Res pyval;
  (** [str(x)], as an f-string renders a value *)
  py_str : pyval -> pystr;
  (** [format(x, ',.0f')] *)
  format_money : pyval -> Res pystr;
  (** [str(row)] of a row of the data frame *)
  row_text : Row -> pystr;
  (** one entry of [pd.to_numeric(column, errors='coerce') > thresh] *)
  amount_gt : pyval -> Z -> bool;
  (** one entry of [pd.to_numeric(column, errors='coerce') < thresh] *)
  amount_lt : pyval -> Z -> bool;
  (** sorting by date, the first 15 lines and the total (the end of
      [advanced_search]) *)
  render_found : list Row -> Res pystr;
  (** [re.findall] with the pattern of capitalised Cyrillic words *)
  find_names : pystr -> list pystr;
  (** [int(s)] of a string: the integer it reads, or the [ValueError] it
      raises.  What it accepts besides a plain run of digits (signs,
      underscores, spaces around, the decimal digits and spaces of Unicode,
      the limit on the number of digits) is CPython's and differs between
      its versions. *)
  py_int : pystr -> Res Z;
  (** what a report handler does with the cached rows (pandas, matplotlib,
      the backup file): the messages it sends, and the exception it raises
      after them, if any.  [what] names the handler, [period] is the argument
      of [show_analytics], then the clock and the user's context lines. *)
  report_body : pystr -> option pystr -> Z -> list pystr -> list Row -> list reply * option exn
}.

(** ** Slices *)

(** [l[-k:]] for [k > 0]. *)
Definition last_n {A} (k : nat) (l : list A) : list A := drop (length l - k) l.

(** ** The command router ([parse_voice_command]) *)

Definition any_in (phrases : list pystr) (text : pystr) : bool :=
  existsb (fun phrase => contains phrase text) phrases.

Definition voice_command (command : pystr) (text : pystr) : pyval :=
  PDict [ (u "type", PStr (u "voice_command"));
          (u "command", PStr command);
          (u "params", PStr text) ].

Definition parse_voice_command (text : pystr) : option pyval :=
  let text_lower := lower text in
  if any_in [u "кому платили"; u "анализ получателей"; u "по получателям";
             u "кому больше"; u "топ получателей"] text_lower
  then Some (voice_command (u "recipients") text)
  else if any_in [u "анализ поставщика"; u "по поставщику"; u "история с";
                  u "поставщик"] text_lower
  then Some (voice_command (u "suppliers") text)
  else if any_in [u "по категориям"; u "категории"; u "расходы по"] text_lower
  then Some (voice_command (u "categories") text)
  else if any_in [u "анализ"; u "аналитика"; u "отчет"; u "покажи траты";
                  u "сколько потратили"] text_lower
  then Some (voice_command (u "analytics") text)
  else if any_in [u "найди"; u "найти"; u "поиск"; u "покажи операции";
                  u "когда платили"] text_lower
  then Some (voice_command (u "search") text)
  else if any_in [u "история"; u "последние операции"; u "что было"] text_lower
  then Some (voice_command (u "history") text)
  else if any_in [u "бэкап"; u "резервная копия"; u "сохрани"; u "backup"] text_lower
  then Some (voice_command (u "backup") text)
  else None.

(** ** Parameters of a voice command ([extract_params_from_voice]) *)

Record Params := {
  p_name : option pystr;
  p_period : option pystr;
  p_category : option pystr
}.

Definition months : list pystr :=
  [u "январь"; u "февраль"; u "март"; u "апрель"; u "май"; u "июнь"; u "июль";
   u "август"; u "сентябрь"; u "октябрь"; u "ноябрь"; u "декабрь"].

Section Bot.
Context `{Externals}.

Definition extract_params_from_voice (text : pystr) : Params :=
  let text_lower := lower text in
  {| p_name :=
       match find_names text with
       | [] => None
       | name :: _ => Some (normalize_name name)
       end;
     p_period :=
       if any_in [u "неделя"; u "неделю"] text_lower then Some (u "неделя")
       else if any_in [u "месяц"] text_lower then Some (u "месяц")
       else find (fun month => contains month text_lower) months;
     p_category :=
       if any_in [u "зарплат"; u "зарплаты"] text_lower then Some (u "зарплаты")
       else if any_in [u "поставщик"; u "поставщиков"] text_lower then Some (u "поставщик")
       else if any_in [u "процент"; u "проценты"] text_lower then Some (u "процент")
       else None |}.

(** ** The ledger cache *)

Definition invalidate_cache : M unit :=
  modify (set_cache None None).

(** [finance_sheet.get_all_records()]: the rows below the header. *)
Definition fetch_all_records : M (list Row) :=
  remote get_all_records APIError ;;;
  gets (fun w => tail (sheet w)).

(** The refresh branch of [get_cached_records]. *)
Definition refresh_cache (now_ : Z) : M (list Row) :=
  records <- fetch_all_records ;;
  modify (set_cache (Some records) (Some now_)) ;;;
  ret records.

Definition get_cached_records : M (list Row) :=
  now_ <- gets now ;;
  cache <- gets SHEETS_CACHE ;;
  stamp <- gets CACHE_TIMESTAMP ;;
  match cache, stamp with
  | Some records, Some t =>
      if (now_ - t >? CACHE_TIMEOUT)%Z then refresh_cache now_ else ret records
  | _, _ => refresh_cache now_
  end.

(** ** The context store *)

(** [save_context]: [open(CONTEXT_FILE, 'w')] empties the file and
    [json.dump] writes the whole of [USER_CONTEXT] to it.  A write that fails
    at [open] leaves the file as it was; one that fails later leaves it
    emptied or cut short. *)
Definition save_context : M unit :=
  fun w =>
    match remote write_context_file OSError w with
    | (Ok _, w1) => (Ok tt, set_context_file (Some (USER_CONTEXT w1)) w1)
    | (Raise e, w1) =>
        (Raise e, if write_fails_at_open w1 then w1 else tear_context_file w1)
    end.

(** The f-string of [update_user_context]. *)
Definition context_line (data : pyval) : Res pystr :=
  let? description := py_getitem data (u "description") in
  let? amount := py_getitem data (u "amount") in
  let? money := format_money amount in
  let? category := py_getitem data (u "category") in
  Ok (py_str description ++ u ": " ++ money ++ u " ₽ (" ++ py_str category ++ u ")").

Definition recent_operations (user_id : pystr) (w : World) : list pystr :=
  default [] (USER_CONTEXT w !! user_id).

Definition update_user_context (user_id : pystr) (operation_data : LastOperation) : M unit :=
  known <- gets (fun w => bool_decide (is_Some (USER_CONTEXT w !! user_id))) ;;
  (if known then ret tt
   else modify (fun w => set_context (<[user_id := []]> (USER_CONTEXT w)) w)) ;;;
  line <- lift (context_line (op_data operation_data)) ;;
  modify (fun w =>
    set_context (<[user_id := recent_operations user_id w ++ [line]]> (USER_CONTEXT w)) w) ;;;
  ops <- gets (recent_operations user_id) ;;
  (if (10 <? length ops)%nat
   then modify (fun w => set_context (<[user_id := last_n 10 ops]> (USER_CONTEXT w)) w)
   else ret tt) ;;;
  save_context.

(** ** The ledger mutator *)

(** The row [add_finance_record] writes; [data.get('comment', '')] last. *)
Definition finance_row (date : pystr) (data : pyval) : Res Row :=
  let? operation_type := py_getitem data (u "operation_type") in
  let? category := py_getitem data (u "category") in
  let? description := py_getitem data (u "description") in
  let? amount := py_getitem data (u "amount") in
  let? comment := py_get data (u "comment") (PStr []) in
  Ok {| c_date := PStr date; c_operation_type := operation_type;
        c_category := category; c_description := description;
        c_amount := amount; c_comment := comment |}.

(** [finance_sheet.append_row(row)]: the row goes below the last one. *)
Definition sheet_append_row (row : Row) : M unit :=
  remote (append_row row) APIError ;;;
  modify (fun w => set_sheet (sheet w ++ [row]) w).

Definition add_finance_record (data : pyval) (user_id : pystr) : M bool :=
  try_except
    (date <- gets today ;;
     row <- lift (finance_row date data) ;;
     sheet_append_row row ;;;
     invalidate_cache ;;;
     records <- get_cached_records ;;
     timestamp <- gets now ;;
     let last := {| op_data := data; op_row := length records;
                    op_timestamp := timestamp |} in
     modify (fun w =>
       set_last_operations (<[user_id := last]> (USER_LAST_OPERATIONS w)) w) ;;;
     update_user_context user_id last ;;;
     ret true)
    (fun _ => ret false).

(** The rows that remain after [delete_rows(start_index, end_index)] of
    gspread: rows [start_index] to [end_index], both counted from 1 and both
    included, are removed; with no [end_index], the single row
    [start_index]. *)
Definition rows_after_delete (start_index : nat) (end_index : option nat)
    (rows : list Row) : list Row :=
  let last_index := default start_index end_index in
  if (last_index <? start_index)%nat then rows
  else take (start_index - 1) rows ++ drop last_index rows.

Definition sheet_delete_rows (start_index : nat) (end_index : option nat) : M unit :=
  remote (delete_rows start_index end_index) APIError ;;;
  modify (fun w => set_sheet (rows_after_delete start_index end_index (sheet w)) w).

Definition delete_finance_record (row_number : nat) : M bool :=
  try_except
    (sheet_delete_rows row_number None ;;;
     invalidate_cache ;;;
     ret true)
    (fun _ => ret false).

(** [finance_sheet.get_all_values()]: every row, the header included. *)
Definition fetch_all_values : M (list Row) :=
  remote get_all_values APIError ;;;
  gets sheet.

Definition clear_table : M bool :=
  try_except
    (records <- fetch_all_values ;;
     (if (1 <? length records)%nat
      then sheet_delete_rows 2 (Some (length records - 1)%nat)
      else ret tt) ;;;
     invalidate_cache ;;;
     ret true)
    (fun _ => ret false).

(** ** The intent classifier ([analyze_message_with_ai]) *)

Definition clarification (message : pystr) : pyval :=
  PDict [ (u "type", PStr (u "clarification"));
          (u "message", PStr message);
          (u "suggestions", PList []) ].

(** What is returned when the answer is not JSON. *)
Definition parse_apology : pyval :=
  clarification (u "Ошибка анализа. Попробуйте переформулировать.").

(** What is returned when anything else goes wrong. *)
Definition failure_apology : pyval :=
  clarification (u "Извините, произошла ошибка. Попробуйте переформулировать.").

(** Removal of a Markdown fence around the answer. *)
Definition strip_fence (result : pystr) : pystr :=
  if startswith result (u "```json") then slice_between 7 3 result
  else if startswith result (u "```") then slice_between 3 3 result
  else result.

(** The context lines the prompt embeds: [recent_operations[-5:]]. *)
Definition prompt_context (user_context : option (list pystr)) : list pystr :=
  match user_context with
  | Some ops => last_n 5 ops
  | None => []
  end.

Definition analyze_message_with_ai (text : pystr) (user_context : option (list pystr))
    : M pyval :=
  try_except
    (match parse_voice_command text with
     | Some command_result => ret command_result
     | None =>
         let context_lines := prompt_context user_context in
         remote (chat_completion context_lines text) APIError ;;;
         content <- gets (fun w => nlu_answer w context_lines text) ;;
         let result := strip_fence (strip content) in
         match json_loads result with
         | Ok parsed => ret parsed
         | Raise JSONDecodeError => ret parse_apology
         | Raise e => raise e
         end
     end)
    (fun _ => ret failure_apology).

(** ** Search ([advanced_search]) *)

(** [parts[i]]. *)
Definition list_item {A} (i : nat) (parts : list A) : Res A :=
  match parts !! i with
  | Some x => Ok x
  | None => Raise IndexError
  end.

(** The filter: substring match on the whole row, replaced by the threshold
    on the amount when the query holds a comparison sign. *)
Definition search_mask (search_query : pystr) (records : list Row) : Res (list bool) :=
  let mask := map (fun row => contains search_query (lower (row_text row))) records in
  if contains (u ">") search_query then
    let? part := list_item 1 (split_on 62 search_query) in
    let? thresh := py_int part in
    Ok (map (fun row => amount_gt (c_amount row) thresh) records)
  else if contains (u "<") search_query then
    let? part := list_item 1 (split_on 60 search_query) in
    let? thresh := py_int part in
    Ok (map (fun row => amount_lt (c_amount row) thresh) records)
  else Ok mask.

(** [finance_records[mask]]. *)
Fixpoint select_rows (mask : list bool) (records : list Row) : list Row :=
  match mask, records with
  | keep :: mask', row :: records' =>
      if keep then row :: select_rows mask' records' else select_rows mask' records'
  | _, _ => []
  end.

Definition found_records (search_query : pystr) (records : list Row) : Res (list Row) :=
  let? mask := search_mask search_query records in
  Ok (select_rows mask records).

Definition advanced_search (args : list pystr) : M unit :=
  match args with
  | [] => reply_text SearchHelp
  | _ =>
      let search_query := lower (join (u " ") args) in
      try_except
        (reply_text (Searching search_query) ;;;
         records <- get_cached_records ;;
         match records with
         | [] => reply_text NoData
         | _ =>
             found <- lift (found_records search_query records) ;;
             match found with
             | [] => reply_text (NotFound search_query)
             | _ =>
                 text <- lift (render_found found) ;;
                 reply_text (Found text)
             end
         end)
        (fun _ => reply_text SearchFailed)
  end.

(** ** Reports *)

Fixpoint send_all (replies : list reply) : M unit :=
  match replies with
  | [] => ret tt
  | r :: rest => reply_text r ;;; send_all rest
  end.

(** The shape shared by [show_analytics], [show_context_history],
    [create_backup], [show_recipients], [show_suppliers] and
    [show_categories]: announce, read the cached rows, compute and send; any
    exception ends in the handler's error message. *)
Definition run_report (what : pystr) (period : option pystr) (user_id : pystr) : M unit :=
  try_except
    (reply_text (Progress what) ;;;
     records <- get_cached_records ;;
     now_ <- gets now ;;
     lines <- gets (recent_operations user_id) ;;
     let '(replies, failure) := report_body what period now_ lines records in
     send_all replies ;;;
     match failure with
     | Some e => raise e
     | None => ret tt
     end)
    (fun _ => reply_text (ReportFailed what)).

Definition show_analytics (user_id : pystr) (period : option pystr) : M unit :=
  run_report (u "analytics") period user_id.
Definition show_context_history (user_id : pystr) : M unit :=
  run_report (u "history") None user_id.
Definition create_backup (user_id : pystr) : M unit :=
  run_report (u "backup") None user_id.
Definition show_recipients (user_id : pystr) : M unit :=
  run_report (u "recipients") None user_id.
Definition show_suppliers (user_id : pystr) : M unit :=
  run_report (u "suppliers") None user_id.
Definition show_categories (user_id : pystr) : M unit :=
  run_report (u "categories") None user_id.

Definition edit_last : M unit := reply_text EditHint.

Definition delete_last : M unit :=
  try_except
    (records <- get_cached_records ;;
     deleted <- delete_finance_record (length records + 1) ;;
     if deleted then reply_text LastDeleted else reply_text DeleteFailed)
    (fun _ => reply_text DeleteError).

(** ** Dispatch of a recognised command ([handle_voice_command]) *)

(** [text.lower()] and the like need a [str]. *)
Definition as_str (v : pyval) : Res pystr :=
  match v with
  | PStr s => Ok s
  | _ => Raise AttributeError
  end.

Definition search_terms (params : Params) : list pystr :=
  match p_name params with Some name => [name] | None => [] end
  ++ match p_period params with Some period => [period] | None => [] end
  ++ match p_category params with Some category => [category] | None => [] end.

Definition handle_voice_command (user_id : pystr) (analysis : pyval) : M unit :=
  command <- lift (py_getitem analysis (u "command")) ;;
  params_text <- lift (py_getitem analysis (u "params")) ;;
  text <- lift (as_str params_text) ;;
  let params := extract_params_from_voice text in
  if is_str command (u "analytics") then show_analytics user_id (p_period params)
  else if is_str command (u "search") then
    match search_terms params with
    | [] => reply_text VoiceSearchHelp
    | terms => advanced_search terms
    end
  else if is_str command (u "history") then show_context_history user_id
  else if is_str command (u "backup") then create_backup user_id
  else if is_str command (u "recipients") then show_recipients user_id
  else if is_str command (u "suppliers") then show_suppliers user_id
  else if is_str command (u "categories") then show_categories user_id
  else ret tt.

(** ** The confirmation gate ([process_analysis_result]) *)

(** The fields both the confirmation prompt and the success message
    interpolate; the f-string raises when one is missing or the amount does
    not format. *)
Definition summary_fields (analysis : pyval) : Res unit :=
  let? _ := py_getitem analysis (u "operation_type") in
  let? _ := py_getitem analysis (u "category") in
  let? _ := py_getitem analysis (u "description") in
  let? amount := py_getitem analysis (u "amount") in
  let? _ := format_money amount in
  Ok tt.

(** [suggestions[:3]]. *)
Definition first_three (suggestions : pyval) : Res (list pyval) :=
  match suggestions with
  | PList l => Ok (take 3 l)
  | PStr s => Ok (map (fun c => PStr [c]) (take 3 s))
  | _ => Raise TypeError
  end.

(** The default of [analysis.get('confidence', 1.0)]. *)
Definition DEFAULT_CONFIDENCE : pyval := PFloat 1%float.

Definition process_analysis_result (analysis : pyval) (user_id : pystr) : M unit :=
  type_ <- lift (py_getitem analysis (u "type")) ;;
  if is_str type_ (u "voice_command") then handle_voice_command user_id analysis
  else if is_str type_ (u "finance") then
    confidence <- lift (py_get analysis (u "confidence") DEFAULT_CONFIDENCE) ;;
    low <- lift (below_threshold confidence) ;;
    if low then
      lift (summary_fields analysis) ;;;
      reply_text (ConfirmPrompt analysis)
    else
      written <- add_finance_record analysis user_id ;;
      if written then
        lift (summary_fields analysis) ;;;
        reply_text (Recorded analysis)
      else reply_text WriteFailed
  else
    suggestions <- lift (py_get analysis (u "suggestions") (PList [])) ;;
    message <- lift (py_get analysis (u "message") (PStr (u "Не понял ваше сообщение."))) ;;
    if py_truthy suggestions then
      shown <- lift (first_three suggestions) ;;
      reply_text (Clarify message shown)
    else reply_text (Clarify message []).

(** ** Button presses ([handle_callback_query]) *)

Definition handle_callback_query (user_id : pystr) (data : pystr) : M unit :=
  try_except
    (if pystr_eqb data (u "quick_analytics") then show_analytics user_id None
     else if pystr_eqb data (u "quick_search") then reply_text QuickSearchMenu
     else if pystr_eqb data (u "quick_history") then show_context_history user_id
     else if pystr_eqb data (u "quick_backup") then create_backup user_id
     else if pystr_eqb data (u "quick_categories") then show_categories user_id
     else if pystr_eqb data (u "quick_recipients") then show_recipients user_id
     else if pystr_eqb data (u "quick_suppliers") then show_suppliers user_id
     else if pystr_eqb data (u "quick_edit") then edit_last
     else if pystr_eqb data (u "quick_delete") then delete_last
     else if startswith data (u "search_") then
       advanced_search [remove_all (u "search_") data]
     else if startswith data (u "confirm_") then
       let parts := split_on 95 data in
       action <- lift (list_item 1 parts) ;;
       choice <- lift (list_item 2 parts) ;;
       if pystr_eqb choice (u "yes") && pystr_eqb action (u "clear") then
         cleared <- clear_table ;;
         if cleared then reply_text Cleared else reply_text ClearFailed
       else if pystr_eqb choice (u "no") then reply_text Cancelled
       else reply_text UnknownConfirmation
     else reply_text NotImplemented)
    (fun _ => reply_text CallbackFailed).

(** ** Entry points *)

(** [ALLOWED_USERS and user_id not in ALLOWED_USERS]. *)
Definition access_denied (user_id : pystr) (w : World) : bool :=
  match ALLOWED_USERS w with
  | [] => false
  | allowed => negb (bool_decide (user_id ∈ allowed))
  end.

Definition start (user_id : pystr) : M unit :=
  denied <- gets (access_denied user_id) ;;
  if denied then reply_text AccessDenied
  else reply_text Welcome.

Definition handle_message (user_id : pystr) (user_message : pystr) : M unit :=
  denied <- gets (access_denied user_id) ;;
  if denied then reply_text AccessDenied
  else
    reply_text Analyzing ;;;
    user_context <- gets (fun w => USER_CONTEXT w !! user_id) ;;
    analysis <- analyze_message_with_ai user_message user_context ;;
    process_analysis_result analysis user_id.

Definition handle_voice (user_id : pystr) : M unit :=
  denied <- gets (access_denied user_id) ;;
  if denied then reply_text AccessDenied
  else
    try_except
      (reply_text Recognizing ;;;
       remote transcription APIError ;;;
       recognized_text <- gets transcript ;;
       reply_text (Recognized recognized_text) ;;;
       user_context <- gets (fun w => USER_CONTEXT w !! user_id) ;;
       analysis <- analyze_message_with_ai recognized_text user_context ;;
       process_analysis_result analysis user_id)
      (fun _ => reply_text VoiceFailed).

Definition clear_table_command (user_id : pystr) : M unit :=
  denied <- gets (access_denied user_id) ;;
  if denied then reply_text AccessDenied
  else reply_text ClearPrompt.

(** What reaches the bot, and the handler [main] registers for it. *)
Inductive request :=
| Start
| Search (args : list pystr)
| History
| Analytics
| Backup
| ClearTable
| Text (message : pystr)
| Voice
| Button (data : pystr).

Definition dispatch (user_id : pystr) (r : request) : M unit :=
  match r with
  | Start => start user_id
  | Search args => advanced_search args
  | History => show_context_history user_id
  | Analytics => show_analytics user_id None
  | Backup => create_backup user_id
  | ClearTable => clear_table_command user_id
  | Text message => handle_message user_id message
  | Voice => handle_voice user_id
  | Button data => handle_callback_query user_id data
  end.

End Bot.

(** ** An instance of the library functions, to run the bot on examples

    Exact on the inputs the examples use: JSON without escapes, fractions or
    exponents; strings, integers, booleans and [None] for [str]; integers
    for the amounts; for [int], strings of fewer than 4300 characters whose
    digits are those of ASCII. *)
Module Plain.

Definition is_digit (c : N) : bool := (48 <=? c) && (c <=? 57).

(** Decimal digits, with single underscores allowed between digits. *)
Fixpoint digits_value (acc : Z) (after_digit : bool) (s : pystr) : option Z :=
  match s with
  | [] => if after_digit then Some acc else None
  | c :: r =>
      if is_digit c then digits_value (acc * 10 + Z.of_N (c - 48)) true r
      else if (c =? 95) && after_digit then
        match r with
        | d :: _ => if is_digit d then digits_value acc false r else None
        | [] => None
        end
      else None
  end.

(** The spaces [int] skips around the digits: those of ASCII that C's
    [isspace] knows, and the spaces of Unicode past ASCII. *)
Definition is_int_space (c : N) : bool :=
  ((9 <=? c) && (c <=? 13)) || (c =? 32) || ((127 <=? c) && is_space c).

Fixpoint skip_int_space (s : pystr) : pystr :=
  match s with
  | c :: r => if is_int_space c then skip_int_space r else s
  | [] => []
  end.

(** [int(s)] in base 10: spaces around, an optional sign, digits. *)
Definition int_of (s : pystr) : Res Z :=
  let t := rev (skip_int_space (rev (skip_int_space s))) in
  let '(negative, digits) :=
    match t with
    | 45 :: r => (true, r)
    | 43 :: r => (false, r)
    | _ => (false, t)
    end in
  match digits_value 0 false digits with
  | Some n => Ok (if negative then (- n)%Z else n)
  | None => Raise ValueError
  end.

Definition is_json_space (c : N) : bool :=
  (c =? 32) || (c =? 9) || (c =? 10) || (c =? 13).

Fixpoint skip_space (s : pystr) : pystr :=
  match s with
  | c :: r => if is_json_space c then skip_space r else s
  | [] => []
  end.

(** The characters of a string literal after its opening quote, and the
    rest of the input. *)
Fixpoint read_string (acc s : pystr) : option (pystr * pystr) :=
  match s with
  | [] => None
  | c :: r =>
      if c =? 34 then Some (rev acc, r)
      else if (c =? 92) || (c <? 32) then None
      else read_string (c :: acc) r
  end.

Fixpoint read_digits (acc : Z) (s : pystr) : Z * pystr :=
  match s with
  | c :: r => if is_digit c then read_digits (acc * 10 + Z.of_N (c - 48)) r else (acc, s)
  | [] => (acc, [])
  end.

(** An integer literal: no leading zero, no fraction, no exponent. *)
Definition read_integer (s : pystr) : option (Z * pystr) :=
  let '(negative, digits) :=
    match s with
    | 45 :: r => (true, r)
    | _ => (false, s)
    end in
  match digits with
  | c :: r =>
      if is_digit c then
        let '(n, rest) := if c =? 48 then (0%Z, r) else read_digits 0 digits in
        match rest with
        | d :: _ =>
            if is_digit d || (d =? 46) || (d =? 101) || (d =? 69) then None
            else Some (if negative then (- n)%Z else n, rest)
        | [] => Some (if negative then (- n)%Z else n, rest)
        end
      else None
  | [] => None
  end.

(** [d[k] = v]. *)
Fixpoint dict_set (d : list (pystr * pyval)) (k : pystr) (v : pyval)
    : list (pystr * pyval) :=
  match d with
  | [] => [(k, v)]
  | (k', v') :: d' => if pystr_eqb k' k then (k, v) :: d' else (k', v') :: dict_set d' k v
  end.

Inductive task :=
| Value
| Members (acc : list (pystr * pyval))
| Elements (acc : list pyval).

(** A recursive-descent reader; [Members] and [Elements] stand after an
    opening bracket or a comma. *)
Fixpoint read (fuel : nat) (t : task) (s : pystr) : option (pyval * pystr) :=
  match fuel with
  | O => None
  | S fuel' =>
      match t with
      | Value =>
          match skip_space s with
          | 123 :: r =>
              match skip_space r with
              | 125 :: r' => Some (PDict [], r')
              | _ => read fuel' (Members []) r
              end
          | 91 :: r =>
              match skip_space r with
              | 93 :: r' => Some (PList [], r')
              | _ => read fuel' (Elements []) r
              end
          | 34 :: r =>
              match read_string [] r with
              | Some (str, r') => Some (PStr str, r')
              | None => None
              end
          | 110 :: 117 :: 108 :: 108 :: r => Some (PNone, r)
          | 116 :: 114 :: 117 :: 101 :: r => Some (PBool true, r)
          | 102 :: 97 :: 108 :: 115 :: 101 :: r => Some (PBool false, r)
          | s' =>
              match read_integer s' with
              | Some (n, r) => Some (PInt n, r)
              | None => None
              end
          end
      | Members acc =>
          match skip_space s with
          | 34 :: r =>
              match read_string [] r with
              | Some (key, r1) =>
                  match skip_space r1 with
                  | 58 :: r2 =>
                      match read fuel' Value r2 with
                      | Some (v, r3) =>
                          match skip_space r3 with
                          | 44 :: r4 => read fuel' (Members (dict_set acc key v)) r4
                          | 125 :: r4 => Some (PDict (dict_set acc key v), r4)
                          | _ => None
                          end
                      | None => None
                      end
                  | _ => None
                  end
              | None => None
              end
          | _ => None
          end
      | Elements acc =>
          match read fuel' Value s with
          | Some (v, r) =>
              match skip_space r with
              | 44 :: r' => read fuel' (Elements (acc ++ [v])) r'
              | 93 :: r' => Some (PList (acc ++ [v]), r')
              | _ => None
              end
          | None => None
          end
      end
  end.

Definition loads (s : pystr) : Res pyval :=
  match read (2 * length s + 2) Value s with
  | Some (v, rest) =>
      match skip_space rest with
      | [] => Ok v
      | _ => Raise JSONDecodeError
      end
  | None => Raise JSONDecodeError
  end.

(** Decimal digits of a natural number, most significant first. *)
Fixpoint digits_of (fuel : nat) (n : N) (acc : pystr) : pystr :=
  match fuel with
  | O => acc
  | S fuel' =>
      let acc' := (48 + n mod 10) :: acc in
      if n <? 10 then acc' else digits_of fuel' (n / 10) acc'
  end.

Definition decimal (n : N) : pystr := digits_of (S (N.to_nat (N.log2 n))) n [].

(** A comma before every group of three digits, counted from the right. *)
Fixpoint group_thousands (rev_digits : pystr) (k : nat) : pystr :=
  match rev_digits with
  | [] => []
  | c :: r =>
      match k, r with
      | 2%nat, _ :: _ => c :: 44 :: group_thousands r 0
      | _, _ => c :: group_thousands r (S k)
      end
  end.

Definition signed (z : Z) (digits : pystr) : pystr :=
  if (z <? 0)%Z then 45 :: digits else digits.

Definition str_of_int (z : Z) : pystr := signed z (decimal (Z.abs_N z)).

Definition str_of (v : pyval) : pystr :=
  match v with
  | PStr s => s
  | PInt z => str_of_int z
  | PBool true => u "True"
  | PBool false => u "False"
  | PNone => u "None"
  | _ => u "..."
  end.

Definition money (v : pyval) : Res pystr :=
  match v with
  | PInt z => Ok (signed z (rev (group_thousands (rev (decimal (Z.abs_N z))) 0)))
  | _ => Raise ValueError
  end.

Definition text_of_row (r : Row) : pystr :=
  join (u " ") (map str_of [c_date r; c_operation_type r; c_category r;
                            c_description r; c_amount r; c_comment r]).

Definition int_gt (v : pyval) (thresh : Z) : bool :=
  match v with
  | PInt z => (thresh <? z)%Z
  | _ => false
  end.

Definition int_lt (v : pyval) (thresh : Z) : bool :=
  match v with
  | PInt z => (z <? thresh)%Z
  | _ => false
  end.

Definition lines_of (found : list Row) : Res pystr :=
  Ok (join [10] (map text_of_row found)).

#[export] Instance externals : Externals := {|
  json_loads := loads;
  py_str := str_of;
  format_money := money;
  row_text := text_of_row;
  amount_gt := int_gt;
  amount_lt := int_lt;
  render_found := lines_of;
  find_names := fun _ => [];
  py_int := int_of;
  report_body := fun what _ _ _ _ => ([Report what], None)
|}.

End Plain.

(** ** Vocabulary of the properties *)

Definition is_fetch (e : event) : bool :=
  match e with
  | Called get_all_records _ => true
  | _ => false
  end.

(** How many times the rows of the sheet were fetched for the cache. *)
Definition fetches (l : list event) : nat := length (filter is_fetch l).

(** A read of the cache when the clock shows [t]. *)
Definition get_at (t : Z) : M (list Row) :=
  fun w => get_cached_records (set_now t w).

(** Reads of the cache at the given times, one after the other. *)
Fixpoint gets_at (times : list Z) (w : World) : list (Res (list Row)) * World :=
  match times with
  | [] => ([], w)
  | t :: rest =>
      let '(r, w1) := get_at t w in
      let '(rs, w2) := gets_at rest w1 in
      (r :: rs, w2)
  end.

(** Every call of the plan succeeds. *)
Definition calls_succeed (w : World) : Prop := Forall (eq true) (outcomes w).

(** The next call that leaves the process fails. *)
Definition next_call_fails (w : World) : Prop :=
  exists rest, outcomes w = false :: rest.

(** [confidence >= 0.7], for the values a JSON number can be. *)
Definition at_least_threshold (confidence : pyval) : Prop :=
  match confidence with
  | PFloat f => (CONFIDENCE_THRESHOLD <=? f)%float = true
  | PInt z => (1 <= z)%Z
  | _ => False
  end.

(** [confidence < 0.7], likewise. *)
Definition under_threshold (confidence : pyval) : Prop :=
  match confidence with
  | PFloat f => (f <? CONFIDENCE_THRESHOLD)%float = true
  | PInt z => (z <= 0)%Z
  | _ => False
  end.

(** The world is the same but for the chat and call log. *)
Definition same_state (w w' : World) : Prop :=
  sheet w' = sheet w /\ SHEETS_CACHE w' = SHEETS_CACHE w /\
  CACHE_TIMESTAMP w' = CACHE_TIMESTAMP w /\
  USER_LAST_OPERATIONS w' = USER_LAST_OPERATIONS w /\
  USER_CONTEXT w' = USER_CONTEXT w /\ context_file w' = context_file w /\
  context_file_torn w' = context_file_torn w.

(** The world after [data] has been recorded for [user_id] with every call
    succeeding: the row is on the sheet, the cache holds the re-read rows, the
    last operation and the context line are stored and the context file is
    rewritten. *)
Definition committed (data : pyval) (user_id : pystr) (row : Row) (line : pystr)
    (w : World) : World :=
  let records := tail (sheet w ++ [row]) in
  let ctx := <[user_id := last_n 10 (recent_operations user_id w ++ [line])]> (USER_CONTEXT w) in
  {| sheet := sheet w ++ [row];
     SHEETS_CACHE := Some records;
     CACHE_TIMESTAMP := Some (now w);
     USER_LAST_OPERATIONS :=
       <[user_id := {| op_data := data; op_row := length records; op_timestamp := now w |}]>
         (USER_LAST_OPERATIONS w);
     USER_CONTEXT := ctx;
     context_file := Some ctx;
     context_file_torn := false;
     write_fails_at_open := write_fails_at_open w;
     ALLOWED_USERS := ALLOWED_USERS w;
     now := now w; today := today w; nlu_answer := nlu_answer w;
     transcript := transcript w;
     outcomes := tail (tail (tail (outcomes w)));
     log := log w ++ [Called (append_row row) true; Called get_all_records true;
                      Called write_context_file true] |}.

(** ** Start-up *)

(** [ALLOWED_USERS = os.getenv('ALLOWED_USERS', '').split(',')]; [None] when
    the variable is not set. *)
Definition allowed_users_from_env (value : option pystr) : list pystr :=
  split_on 44 (default [] value).

(** [load_context]: when the context file exists, its content replaces
    [USER_CONTEXT]; a file that a failed write has left emptied or cut short
    is not JSON, and [json.load] raises.  (The file is read by no one else, and
    written by [save_context] alone.) *)
Definition load_context : M unit :=
  torn <- gets context_file_torn ;;
  if torn then raise JSONDecodeError
  else
    modify (fun w =>
      match context_file w with
      | Some saved => set_context saved w
      | None => w
      end).

(** A start of the process: the module-level globals take their initial
    values, then [load_context] runs. *)
Definition startup : M unit :=
  modify (fun w => set_context ∅ (set_last_operations ∅ (set_cache None None w))) ;;;
  load_context.

(** ** More vocabulary *)

(** The sheet, the contexts, the context file and the last operations are
    the same: at most the cache, the plan of calls and the log differ. *)
Definition same_ledger (w w' : World) : Prop :=
  sheet w' = sheet w /\ USER_CONTEXT w' = USER_CONTEXT w /\
  context_file w' = context_file w /\
  context_file_torn w' = context_file_torn w /\
  USER_LAST_OPERATIONS w' = USER_LAST_OPERATIONS w.

(** The cache, when it holds rows, holds the records of the sheet. *)
Definition coherent (w : World) : Prop :=
  forall snapshot, SHEETS_CACHE w = Some snapshot -> snapshot = tail (sheet w).

(** A computation keeps a property of the world, however it ends. *)
Definition preserves {A} (P : World -> Prop) (m : M A) : Prop :=
  forall w, P w -> P (snd (m w)).

(** No user's list of context lines is longer than ten. *)
Definition contexts_bounded (w : World) : Prop :=
  forall user_id ops, USER_CONTEXT w !! user_id = Some ops -> (length ops <= 10)%nat.

(** The contexts of the users other than [user_id] are those of [w0]. *)
Definition others_untouched (user_id : pystr) (w0 w : World) : Prop :=
  forall other, other <> user_id -> USER_CONTEXT w !! other = USER_CONTEXT w0 !! other.

(** The calls that leave the process, as the log shows them. *)
Definition is_call (e : event) : bool :=
  match e with
  | Called _ _ => true
  | Replied _ => false
  end.

(** The seven commands of the router. *)
Definition router_commands : list pystr :=
  [u "recipients"; u "suppliers"; u "categories"; u "analytics"; u "search";
   u "history"; u "backup"].

(** ** Sample data *)

Module Sample.

Definition text_cell (s : string) : pyval := PStr (u s).

Definition header : Row :=
  {| c_date := text_cell "Дата"; c_operation_type := text_cell "Тип операции";
     c_category := text_cell "Категория"; c_description := text_cell "Описание/Получатель";
     c_amount := text_cell "Сумма"; c_comment := text_cell "Комментарий" |}.

Definition salary : Row :=
  {| c_date := text_cell "01.11.2026"; c_operation_type := text_cell "Расход";
     c_category := text_cell "Зарплаты сотрудникам"; c_description := text_cell "Петров";
     c_amount := PInt (-40000); c_comment := text_cell "" |}.

Definition deposit : Row :=
  {| c_date := text_cell "02.11.2026"; c_operation_type := text_cell "Пополнение";
     c_category := text_cell "-"; c_description := text_cell "Касса";
     c_amount := PInt 60000; c_comment := text_cell "" |}.

(** A quoted JSON string. *)
Definition quoted (s : string) : pystr := 34 :: u s ++ [34].

(** The answer [{"type": "finance"}]: well-formed JSON without the fields of
    a finance intent. *)
Definition bare_finance_answer : pystr :=
  u "{" ++ quoted "type" ++ u ": " ++ quoted "finance" ++ u "}".

(** The intent of ["дал Тане лично 30000"], with the confidence
    [confidence]. *)
Definition payment (confidence : list (pystr * pyval)) : pyval :=
  PDict ([ (u "type", text_cell "finance");
           (u "operation_type", text_cell "Расход");
           (u "amount", PInt (-30000));
           (u "category", text_cell "Выплаты учредителям");
           (u "description", text_cell "Таня");
           (u "comment", text_cell "") ] ++ confidence).

(** 0.9 and 0.5 as doubles. *)
Definition sure : list (pystr * pyval) := [(u "confidence", PFloat 0x1.ccccccccccccdp-1)].
Definition unsure : list (pystr * pyval) := [(u "confidence", PFloat 0x1p-1)].

Definition payment_row : Row :=
  {| c_date := text_cell "04.11.2026"; c_operation_type := text_cell "Расход";
     c_category := text_cell "Выплаты учредителям"; c_description := text_cell "Таня";
     c_amount := PInt (-30000); c_comment := text_cell "" |}.

Definition payment_line : pystr := u "Таня: -30,000 ₽ (Выплаты учредителям)".

(** User 1001 is allowed; the sheet holds two records; nothing is cached;
    every call succeeds. *)
Definition world (answer : pystr) (plan : list bool) : World :=
  {| sheet := [header; salary; deposit];
     SHEETS_CACHE := None;
     CACHE_TIMESTAMP := None;
     USER_LAST_OPERATIONS := ∅;
     USER_CONTEXT := ∅;
     context_file := None;
     context_file_torn := false;
     write_fails_at_open := false;
     ALLOWED_USERS := [u "1001"];
     now := 1000000;
     today := u "04.11.2026";
     nlu_answer := fun _ _ => answer;
     transcript := u "зарплата Петрову 40000";
     outcomes := plan;
     log := [] |}.

(** The answer of the model for ["дал Тане лично 30000"], as JSON text. *)
Definition payment_answer : pystr :=
  u "{" ++ quoted "type" ++ u ": " ++ quoted "finance" ++ u ", "
    ++ quoted "operation_type" ++ u ": " ++ quoted "Расход" ++ u ", "
    ++ quoted "amount" ++ u ": -30000, "
    ++ quoted "category" ++ u ": " ++ quoted "Выплаты учредителям" ++ u ", "
    ++ quoted "description" ++ u ": " ++ quoted "Таня" ++ u ", "
    ++ quoted "comment" ++ u ": " ++ quoted "" ++ u ", "
    ++ quoted "confidence" ++ u ": 1}".

(** The same intent with the amount as a JSON string. *)
Definition payment_as_text : pyval :=
  PDict [ (u "type", text_cell "finance");
          (u "operation_type", text_cell "Расход");
          (u "amount", text_cell "-30000");
          (u "category", text_cell "Выплаты учредителям");
          (u "description", text_cell "Таня");
          (u "comment", text_cell "") ].

Definition payment_as_text_row : Row :=
  {| c_date := text_cell "04.11.2026"; c_operation_type := text_cell "Расход";
     c_category := text_cell "Выплаты учредителям"; c_description := text_cell "Таня";
     c_amount := text_cell "-30000"; c_comment := text_cell "" |}.

(** A clarification with four suggestions. *)
Definition clarification : list (pystr * pyval) :=
  [ (u "type", text_cell "clarification");
    (u "message", text_cell "Уточните сумму");
    (u "suggestions", PList [text_cell "1000"; text_cell "2000"; text_cell "3000";
                             text_cell "4000"]) ].

(** The sample world when the variable [ALLOWED_USERS] is not set. *)
Definition unconfigured : World :=
  {| sheet := [header; salary; deposit];
     SHEETS_CACHE := None;
     CACHE_TIMESTAMP := None;
     USER_LAST_OPERATIONS := ∅;
     USER_CONTEXT := ∅;
     context_file := None;
     context_file_torn := false;
     write_fails_at_open := false;
     ALLOWED_USERS := allowed_users_from_env None;
     now := 1000000;
     today := u "04.11.2026";
     nlu_answer := fun _ _ => [];
     transcript := [];
     outcomes := [];
     log := [] |}.

(** The sample world with a context file that holds one line of user
    2002; a write of the file that fails does so after [open]. *)
Definition saved (plan : list bool) : World :=
  set_context_file (Some {[u "2002" := [u "Касса: 60,000 ₽ (-)"]]}) (world [] plan).

(** The sample world with the two records in a cache filled at time 0. *)
Definition cached (t : Z) (plan : list bool) : World :=
  set_now t (set_cache (Some [salary; deposit]) (Some 0%Z) (world [] plan)).

(** The sample world where user 1001 has ten context lines and user 2002
    has one; the model answers with [payment_answer]. *)
Definition busy : World :=
  set_context (<[u "2002" := [u "Касса: 60,000 ₽ (-)"]]>
                 {[u "1001" := replicate 10 payment_line]})
    (world payment_answer []).

End Sample.

(** * Properties *)

(** ** Auxiliary facts *)

Lemma next_outcome_true (plan : list bool) : Forall (eq true) plan -> next_outcome plan = true.
Proof. destruct plan; simpl; [reflexivity | ]. intros Hok; inversion Hok; auto. Qed.

Lemma Forall_tail {A} (P : A -> Prop) (l : list A) : Forall P l -> Forall P (tail l).
Proof. destruct l; simpl; [auto | ]. intros Hl; inversion Hl; auto. Qed.

Lemma remote_succeeds (c : call) (e : exn) (w : World) :
  calls_succeed w ->
  remote c e w =
    (Ok tt, set_outcomes (tail (outcomes w)) (set_log (log w ++ [Called c true]) w)).
Proof.
  unfold calls_succeed, remote. intros Hok.
  rewrite (next_outcome_true _ Hok). reflexivity.
Qed.

Lemma remote_fails (c : call) (e : exn) (w : World) :
  next_call_fails w ->
  remote c e w =
    (Raise e, set_outcomes (tail (outcomes w)) (set_log (log w ++ [Called c false]) w)).
Proof. intros [rest Hrest]. unfold remote. rewrite Hrest. reflexivity. Qed.

Lemma last_n_short {A} (k : nat) (l : list A) : (length l <= k)%nat -> last_n k l = l.
Proof.
  intros Hl. unfold last_n. replace (length l - k)%nat with 0%nat by lia. reflexivity.
Qed.

Lemma last_n_length {A} (k : nat) (l : list A) : (length (last_n k l) <= k)%nat.
Proof. unfold last_n. rewrite length_drop. lia. Qed.

(** The newest line is the last of the kept ones. *)
Lemma last_n_snoc {A} (k : nat) (l : list A) (x : A) :
  last_n (S k) (l ++ [x]) = last_n k l ++ [x].
Proof.
  unfold last_n. rewrite length_app. simpl.
  replace (length l + 1 - S k)%nat with (length l - k)%nat by lia.
  rewrite drop_app_le by lia. reflexivity.
Qed.

Lemma SFcompare_antisym (a b : spec_float) :
  SFcompare b a = option_map CompOpp (SFcompare a b).
Proof.
  destruct a as [sa | sa | | sa ma ea], b as [sb | sb | | sb mb eb]; simpl;
    try reflexivity;
    try (destruct sa; reflexivity); try (destruct sb; reflexivity);
    try (destruct sa, sb; reflexivity).
  destruct sa, sb; try reflexivity.
  - rewrite (Z.compare_antisym ea eb). destruct (ea ?= eb)%Z eqn:E; simpl; try reflexivity.
    change (PosDef.Pos.compare_cont Eq mb ma) with (Pos.compare mb ma).
    change (PosDef.Pos.compare_cont Eq ma mb) with (Pos.compare ma mb).
    rewrite (Pos.compare_antisym ma mb). reflexivity.
  - rewrite (Z.compare_antisym ea eb). destruct (ea ?= eb)%Z eqn:E; simpl; try reflexivity.
    change (PosDef.Pos.compare_cont Eq mb ma) with (Pos.compare mb ma).
    change (PosDef.Pos.compare_cont Eq ma mb) with (Pos.compare ma mb).
    rewrite (Pos.compare_antisym ma mb). reflexivity.
Qed.

Lemma float_le_not_lt (x y : float) : (x <=? y)%float = true -> (y <? x)%float = false.
Proof.
  rewrite leb_spec, ltb_spec. unfold SFleb, SFltb.
  rewrite (SFcompare_antisym (Prim2SF x) (Prim2SF y)).
  destruct (SFcompare (Prim2SF x) (Prim2SF y)) as [[] | ]; simpl; congruence.
Qed.

Lemma at_least_threshold_not_below (confidence : pyval) :
  at_least_threshold confidence -> below_threshold confidence = Ok false.
Proof.
  destruct confidence; simpl; try contradiction.
  - intros Hz. f_equal. apply Z.leb_gt. lia.
  - intros Hf. f_equal. apply float_le_not_lt, Hf.
Qed.

Lemma under_threshold_below (confidence : pyval) :
  under_threshold confidence -> below_threshold confidence = Ok true.
Proof.
  destruct confidence; simpl; try contradiction.
  - intros Hz. f_equal. apply Z.leb_le. lia.
  - intros Hf. f_equal. exact Hf.
Qed.

Lemma py_get_present (v : pyval) (k : pystr) (dflt x : pyval) :
  py_getitem v k = Ok x -> py_get v k dflt = Ok x.
Proof.
  destruct v; simpl; try discriminate.
  destruct (dict_get d k); [ | discriminate]. intros [= ->]. reflexivity.
Qed.

Lemma py_get_absent (d : list (pystr * pyval)) (k : pystr) (dflt : pyval) :
  dict_get d k = None -> py_get (PDict d) k dflt = Ok dflt.
Proof. intros Hk. simpl. rewrite Hk. reflexivity. Qed.

(** ** Name normalisation *)

Lemma normalize_name_examples :
  normalize_name (u "Интигаму") = u "Интигам" /\
  normalize_name (u "Петрову") = u "Петров" /\
  normalize_name (u "Балтики") = u "Балтика" /\
  normalize_name (u "Сидорову") = u "Сидоров".
Proof. repeat split; vm_compute; reflexivity. Qed.

(** A name with one of the case endings never reaches the table. *)
Lemma normalize_name_ending_first (name : pystr) :
  existsb (endswith (lower name)) case_endings = true ->
  normalize_name name = capitalize (drop_last 1 name) \/
  normalize_name name = capitalize (drop_last 2 name).
Proof.
  intros Hend. unfold normalize_name. rewrite Hend.
  destruct (negb _); [left | right]; reflexivity.
Qed.

(** C8: the table of known forms is not consulted first.  ["Балтике"] is a
    key of the table, with value ["Балтика"], but [normalize_name] strips its
    ending before looking and answers ["Балтик"]; of the four examples, only
    ["Балтики"] is answered by the table. *)
Theorem normalize_name_table_is_shadowed :
  dict_get mappings (lower (u "Балтике")) = Some (u "Балтика") /\
  normalize_name (u "Балтике") = u "Балтик" /\
  existsb (endswith (lower (u "Интигаму"))) case_endings = true /\
  existsb (endswith (lower (u "Петрову"))) case_endings = true /\
  existsb (endswith (lower (u "Балтики"))) case_endings = false.
Proof. repeat split; vm_compute; reflexivity. Qed.

(** ** The ledger cache *)

Lemma fetches_app (l1 l2 : list event) : fetches (l1 ++ l2) = (fetches l1 + fetches l2)%nat.
Proof. unfold fetches. rewrite filter_app, length_app. reflexivity. Qed.

Lemma fetches_snoc_fetch (l : list event) (ok : bool) :
  fetches (l ++ [Called get_all_records ok]) = S (fetches l).
Proof.
  rewrite fetches_app. replace (fetches [Called get_all_records ok]) with 1%nat by reflexivity.
  lia.
Qed.

(** A read within the window returns the held rows and changes nothing. *)
Lemma get_cached_records_fresh (w : World) (snapshot : list Row) (t0 : Z) :
  SHEETS_CACHE w = Some snapshot ->
  CACHE_TIMESTAMP w = Some t0 ->
  (now w - t0 <= CACHE_TIMEOUT)%Z ->
  get_cached_records w = (Ok snapshot, w).
Proof.
  intros Hc Ht Hfresh.
  unfold get_cached_records, bind, gets. rewrite Hc, Ht.
  destruct (Z.gtb_spec (now w - t0) CACHE_TIMEOUT) as [Hgt | _]; [lia | reflexivity].
Qed.

(** A read of an empty cache fetches once, whatever the outcome. *)
Lemma get_cached_records_empty (w : World) :
  SHEETS_CACHE w = None ->
  let ok := next_outcome (outcomes w) in
  let w1 := set_outcomes (tail (outcomes w))
              (set_log (log w ++ [Called get_all_records ok]) w) in
  get_cached_records w =
    if ok then (Ok (tail (sheet w)), set_cache (Some (tail (sheet w))) (Some (now w)) w1)
    else (Raise APIError, w1).
Proof.
  intros Hc. unfold get_cached_records, bind, gets. rewrite Hc.
  unfold refresh_cache, fetch_all_records, bind, remote, gets, modify, ret.
  destruct (next_outcome (outcomes w)); reflexivity.
Qed.

Lemma gets_at_fresh (times : list Z) (w : World) (snapshot : list Row) (t0 : Z) :
  SHEETS_CACHE w = Some snapshot ->
  CACHE_TIMESTAMP w = Some t0 ->
  Forall (fun t => (t - t0 < CACHE_TIMEOUT)%Z) times ->
  fst (gets_at times w) = map (fun _ => Ok snapshot) times /\
  log (snd (gets_at times w)) = log w /\
  SHEETS_CACHE (snd (gets_at times w)) = Some snapshot /\
  CACHE_TIMESTAMP (snd (gets_at times w)) = Some t0 /\
  sheet (snd (gets_at times w)) = sheet w.
Proof.
  revert w. induction times as [ | t rest IH]; intros w Hc Ht Hall.
  - simpl. auto.
  - inversion Hall as [ | ? ? Hfresh Hrest]; subst.
    cbv beta in Hfresh. simpl. unfold get_at.
    rewrite (get_cached_records_fresh (set_now t w) snapshot t0) by (simpl; auto; lia).
    destruct (IH (set_now t w)) as (Hr & Hl & Hc' & Ht' & Hs); auto.
    destruct (gets_at rest (set_now t w)) as [rs w2]. simpl in *.
    rewrite Hr. auto.
Qed.

(** C5: after [invalidate_cache], [get_cached_records] fetches the rows
    exactly once; if the fetch returns a snapshot, every later read whose
    clock is less than five minutes past the fetch returns that snapshot, and
    the log gains no call: nothing is fetched again. *)
Theorem invalidate_then_get_fetches_once (w : World) (times : list Z) :
  Forall (fun t => (t - now w < CACHE_TIMEOUT)%Z) times ->
  let first := get_cached_records (snd (invalidate_cache w)) in
  (exists ok, log (snd first) = log w ++ [Called get_all_records ok]) /\
  fetches (log (snd first)) = S (fetches (log w)) /\
  forall snapshot, fst first = Ok snapshot ->
    let later := gets_at times (snd first) in
    snapshot = tail (sheet w) /\
    fst later = map (fun _ => Ok snapshot) times /\
    log (snd later) = log (snd first) /\
    fetches (log (snd later)) = fetches (log (snd first)) /\
    SHEETS_CACHE (snd later) = Some snapshot.
Proof.
  intros Hall. cbv zeta.
  unfold invalidate_cache, modify. simpl snd.
  rewrite get_cached_records_empty by reflexivity. cbv zeta.
  destruct (next_outcome _); simpl.
  - split; [eexists; reflexivity | ].
    split; [apply fetches_snoc_fetch | ].
    intros snapshot Hsnap. injection Hsnap as <-.
    match goal with |- context [gets_at times ?w1] =>
      destruct (gets_at_fresh times w1 (tail (sheet w)) (now w)) as (Hr & Hl & Hc & _ & _);
        [reflexivity | reflexivity | exact Hall | ]
    end.
    rewrite Hr, Hl, Hc. auto.
  - split; [eexists; reflexivity | ].
    split; [apply fetches_snoc_fetch | ].
    intros snapshot Hsnap. discriminate.
Qed.

Section Properties.
Context `{Externals}.

Ltac fields :=
  cbn [outcomes set_cache set_sheet set_outcomes set_log sheet log now tail
       SHEETS_CACHE CACHE_TIMESTAMP USER_LAST_OPERATIONS USER_CONTEXT context_file
       context_file_torn write_fails_at_open tear_context_file
       ALLOWED_USERS today nlu_answer transcript set_context set_context_file
       set_last_operations set_now fst snd].

(** ** The context store *)

Lemma recent_operations_insert (user_id : pystr) (l : list pystr)
    (m : gmap (list N) (list pystr)) (w : World) :
  recent_operations user_id (set_context (<[user_id := l]> m) w) = l.
Proof. unfold recent_operations. simpl. rewrite lookup_insert_eq. reflexivity. Qed.

Lemma save_context_succeeds (w : World) :
  calls_succeed w ->
  save_context w =
    (Ok tt,
     set_context_file (Some (USER_CONTEXT w))
       (set_outcomes (tail (outcomes w))
          (set_log (log w ++ [Called write_context_file true]) w))).
Proof.
  intros Hok. unfold save_context, bind. rewrite remote_succeeds by assumption.
  reflexivity.
Qed.

(** When the file can be written, the user's list is the old one with the
    new line at its end, cut to its last ten entries. *)
Lemma update_user_context_succeeds (user_id : pystr) (op : LastOperation) (w : World)
    (line : pystr) :
  context_line (op_data op) = Ok line ->
  calls_succeed w ->
  let ctx := <[user_id := last_n 10 (recent_operations user_id w ++ [line])]> (USER_CONTEXT w) in
  update_user_context user_id op w =
    (Ok tt,
     set_context_file (Some ctx)
       (set_outcomes (tail (outcomes w))
          (set_log (log w ++ [Called write_context_file true]) (set_context ctx w)))).
Proof.
  intros Hline Hok. cbv zeta.
  unfold update_user_context, bind, gets, lift, modify, ret. rewrite Hline.
  set (old := recent_operations user_id w).
  destruct (bool_decide (is_Some (USER_CONTEXT w !! user_id))) eqn:Hknown.
  - rewrite recent_operations_insert. fold old.
    destruct (10 <? length (old ++ [line]))%nat eqn:Hlen.
    + cbv beta iota. rewrite save_context_succeeds by exact Hok. simpl.
      rewrite insert_insert_eq. reflexivity.
    + cbv beta iota. rewrite save_context_succeeds by exact Hok. simpl.
      apply Nat.ltb_ge in Hlen. rewrite (last_n_short 10) by exact Hlen. reflexivity.
  - apply bool_decide_eq_false in Hknown.
    assert (Hnone : USER_CONTEXT w !! user_id = None).
    { destruct (USER_CONTEXT w !! user_id) eqn:E; [exfalso; apply Hknown; eauto | reflexivity]. }
    assert (Hold : old = []) by (unfold old, recent_operations; rewrite Hnone; reflexivity).
    rewrite !recent_operations_insert.
    rewrite Hold, !app_nil_l. change (10 <? length [line])%nat with false. cbv beta iota.
    rewrite save_context_succeeds by exact Hok. simpl.
    rewrite insert_insert_eq. rewrite (last_n_short 10) by (simpl; lia). reflexivity.
Qed.

(** ** The ledger mutator *)

Lemma add_finance_record_succeeds (data : pyval) (user_id : pystr) (w : World)
    (row : Row) (line : pystr) :
  finance_row (today w) data = Ok row ->
  context_line data = Ok line ->
  calls_succeed w ->
  add_finance_record data user_id w = (Ok true, committed data user_id row line w).
Proof.
  intros Hrow Hline Hok.
  assert (Hok1 := Forall_tail _ _ Hok).
  assert (Hok2 := Forall_tail _ _ Hok1).
  unfold add_finance_record, try_except, bind at 1, gets.
  unfold bind at 1, lift. rewrite Hrow.
  unfold bind at 1, sheet_append_row, bind at 1. rewrite remote_succeeds by exact Hok.
  unfold modify at 1. unfold bind at 1, invalidate_cache, modify at 1.
  unfold bind at 1. rewrite get_cached_records_empty by reflexivity. cbv zeta.
  fields. rewrite (next_outcome_true _ Hok1).
  unfold bind at 1, gets. unfold bind at 1, modify at 1. unfold bind at 1.
  rewrite (update_user_context_succeeds _ _ _ line) by (simpl; assumption).
  cbv zeta. unfold ret, committed, recent_operations. fields.
  rewrite <- !app_assoc. reflexivity.
Qed.

Lemma add_finance_record_write_fails (data : pyval) (user_id : pystr) (w : World)
    (row : Row) :
  finance_row (today w) data = Ok row ->
  next_call_fails w ->
  add_finance_record data user_id w =
    (Ok false,
     set_outcomes (tail (outcomes w)) (set_log (log w ++ [Called (append_row row) false]) w)).
Proof.
  intros Hrow Hfail.
  unfold add_finance_record, try_except, bind at 1, gets.
  unfold bind at 1, lift. rewrite Hrow.
  unfold bind at 1, sheet_append_row, bind at 1.
  rewrite (remote_fails _ _ _ Hfail). reflexivity.
Qed.

(** C6: when the write to the sheet fails, [add_finance_record] returns
    [False] and leaves the user's context, the context file, the
    last-operation table, the cache and the sheet as they were; the log
    gains the failed [append_row] and nothing else. *)
Theorem add_finance_record_failed_write (data : pyval) (user_id : pystr) (w : World)
    (row : Row) :
  finance_row (today w) data = Ok row ->
  next_call_fails w ->
  let result := add_finance_record data user_id w in
  fst result = Ok false /\
  log (snd result) = log w ++ [Called (append_row row) false] /\
  USER_CONTEXT (snd result) = USER_CONTEXT w /\
  context_file (snd result) = context_file w /\
  USER_LAST_OPERATIONS (snd result) = USER_LAST_OPERATIONS w /\
  SHEETS_CACHE (snd result) = SHEETS_CACHE w /\
  CACHE_TIMESTAMP (snd result) = CACHE_TIMESTAMP w /\
  sheet (snd result) = sheet w.
Proof.
  intros Hrow Hfail. cbv zeta.
  rewrite (add_finance_record_write_fails _ _ _ row Hrow Hfail). fields.
  repeat split; reflexivity.
Qed.

(** Without the fields of a row nothing leaves the process at all. *)
Lemma add_finance_record_malformed (data : pyval) (user_id : pystr) (w : World) (e : exn) :
  finance_row (today w) data = Raise e ->
  add_finance_record data user_id w = (Ok false, w).
Proof.
  intros Hrow.
  unfold add_finance_record, try_except, bind at 1, gets.
  unfold bind at 1, lift. rewrite Hrow. reflexivity.
Qed.

(** ** The confirmation gate *)

Lemma summary_fields_present (date : pystr) (data : pyval) (row : Row) (line : pystr) :
  finance_row date data = Ok row ->
  context_line data = Ok line ->
  summary_fields data = Ok tt.
Proof.
  unfold finance_row, context_line, summary_fields, and_then.
  destruct (py_getitem data (u "operation_type")); [ | discriminate].
  destruct (py_getitem data (u "category")); [ | discriminate].
  destruct (py_getitem data (u "description")); [ | discriminate].
  destruct (py_getitem data (u "amount")); [ | discriminate].
  intros _. destruct (format_money _); [reflexivity | discriminate].
Qed.

(** The branch of [process_analysis_result] behind the gate. *)
Lemma process_finance_not_below (analysis : pyval) (user_id : pystr) (confidence : pyval)
    (w : World) :
  py_getitem analysis (u "type") = Ok (PStr (u "finance")) ->
  py_get analysis (u "confidence") DEFAULT_CONFIDENCE = Ok confidence ->
  below_threshold confidence = Ok false ->
  process_analysis_result analysis user_id w =
    (written <- add_finance_record analysis user_id ;;
     if written then
       lift (summary_fields analysis) ;;;
       reply_text (Recorded analysis)
     else reply_text WriteFailed) w.
Proof.
  intros Htype Hconf Hgate.
  unfold process_analysis_result, bind at 1, lift at 1. rewrite Htype.
  change (is_str (PStr (u "finance")) (u "voice_command")) with false.
  change (is_str (PStr (u "finance")) (u "finance")) with true. cbv iota.
  unfold bind at 1, lift at 1. rewrite Hconf.
  unfold bind at 1, lift at 1. rewrite Hgate. reflexivity.
Qed.

Lemma process_finance_committed (analysis : pyval) (user_id : pystr) (confidence : pyval)
    (w : World) (row : Row) (line : pystr) :
  py_getitem analysis (u "type") = Ok (PStr (u "finance")) ->
  py_get analysis (u "confidence") DEFAULT_CONFIDENCE = Ok confidence ->
  below_threshold confidence = Ok false ->
  finance_row (today w) analysis = Ok row ->
  context_line analysis = Ok line ->
  calls_succeed w ->
  process_analysis_result analysis user_id w =
    (Ok tt,
     set_log (log (committed analysis user_id row line w) ++ [Replied (Recorded analysis)])
       (committed analysis user_id row line w)).
Proof.
  intros Htype Hconf Hgate Hrow Hline Hok.
  rewrite (process_finance_not_below _ _ confidence) by assumption.
  unfold bind at 1. rewrite (add_finance_record_succeeds _ _ _ row line) by assumption.
  unfold bind, lift. rewrite (summary_fields_present _ _ _ _ Hrow Hline). reflexivity.
Qed.

(** X28: a confidence under the threshold: the prompt is sent and nothing else
    happens. *)
Lemma process_finance_below (analysis : pyval) (user_id : pystr) (confidence : pyval)
    (w : World) :
  py_getitem analysis (u "type") = Ok (PStr (u "finance")) ->
  py_getitem analysis (u "confidence") = Ok confidence ->
  under_threshold confidence ->
  summary_fields analysis = Ok tt ->
  process_analysis_result analysis user_id w =
    (Ok tt, set_log (log w ++ [Replied (ConfirmPrompt analysis)]) w).
Proof.
  intros Htype Hconf Hgate Hfields.
  unfold process_analysis_result, bind at 1, lift at 1. rewrite Htype.
  change (is_str (PStr (u "finance")) (u "voice_command")) with false.
  change (is_str (PStr (u "finance")) (u "finance")) with true. cbv iota.
  unfold bind at 1, lift at 1.
  rewrite (py_get_present _ _ _ _ Hconf).
  unfold bind at 1, lift at 1. rewrite (under_threshold_below _ Hgate).
  unfold bind, lift. rewrite Hfields. reflexivity.
Qed.

(** C1: a finance intent whose confidence is at least 0.7, with the fields
    of a row and an amount that formats, processed while the calls to the
    sheet and the write of the context file succeed: one row is appended to
    the sheet (one [append_row] call), the user's context list is the old one
    with the rendered line at its end, cut to its last ten entries, so its
    length is at most 10, and the other users' lists are untouched. *)
Theorem confident_finance_is_recorded (analysis : pyval) (user_id : pystr)
    (confidence : pyval) (w : World) (row : Row) (line : pystr) :
  py_getitem analysis (u "type") = Ok (PStr (u "finance")) ->
  py_getitem analysis (u "confidence") = Ok confidence ->
  at_least_threshold confidence ->
  finance_row (today w) analysis = Ok row ->
  context_line analysis = Ok line ->
  calls_succeed w ->
  let w' := snd (process_analysis_result analysis user_id w) in
  sheet w' = sheet w ++ [row] /\
  log w' = log w ++ [Called (append_row row) true; Called get_all_records true;
                     Called write_context_file true; Replied (Recorded analysis)] /\
  recent_operations user_id w' = last_n 9 (recent_operations user_id w) ++ [line] /\
  (length (recent_operations user_id w') <= 10)%nat /\
  (forall other, other <> user_id -> USER_CONTEXT w' !! other = USER_CONTEXT w !! other) /\
  context_file w' = Some (USER_CONTEXT w').
Proof.
  intros Htype Hconf Hgate Hrow Hline Hok. cbv zeta.
  rewrite (process_finance_committed _ _ confidence _ row line); try assumption.
  2: { apply py_get_present, Hconf. }
  2: { apply at_least_threshold_not_below, Hgate. }
  unfold committed, recent_operations. fields.
  rewrite lookup_insert_eq. simpl default.
  split; [reflexivity | ].
  split; [rewrite <- app_assoc; reflexivity | ].
  split; [apply last_n_snoc | ].
  split; [apply last_n_length | ].
  split; [ | reflexivity].
  intros other Hother. apply lookup_insert_ne. congruence.
Qed.

(** C10: a finance intent without a [confidence] key passes the gate as if
    its confidence were 1.0: [process_analysis_result] goes straight to
    [add_finance_record], in every world; and when the intent has the fields
    of a row and the calls succeed, the row is appended and the only message
    is the confirmation of the record, never the prompt. *)
Theorem missing_confidence_commits (d : list (pystr * pyval)) (user_id : pystr) :
  dict_get d (u "type") = Some (PStr (u "finance")) ->
  dict_get d (u "confidence") = None ->
  py_get (PDict d) (u "confidence") DEFAULT_CONFIDENCE = Ok (PFloat 1) /\
  below_threshold (PFloat 1) = Ok false /\
  (forall w : World,
     process_analysis_result (PDict d) user_id w =
       (written <- add_finance_record (PDict d) user_id ;;
        if written then
          lift (summary_fields (PDict d)) ;;;
          reply_text (Recorded (PDict d))
        else reply_text WriteFailed) w) /\
  (forall (w : World) (row : Row) (line : pystr),
     finance_row (today w) (PDict d) = Ok row ->
     context_line (PDict d) = Ok line ->
     calls_succeed w ->
     let w' := snd (process_analysis_result (PDict d) user_id w) in
     sheet w' = sheet w ++ [row] /\
     log w' = log w ++ [Called (append_row row) true; Called get_all_records true;
                        Called write_context_file true; Replied (Recorded (PDict d))]).
Proof.
  intros Htype Hnone.
  assert (Hget : py_getitem (PDict d) (u "type") = Ok (PStr (u "finance")))
    by (simpl; rewrite Htype; reflexivity).
  assert (Hconf := py_get_absent d (u "confidence") DEFAULT_CONFIDENCE Hnone).
  split; [exact Hconf | ].
  split; [reflexivity | ].
  split.
  - intros w. apply (process_finance_not_below _ _ DEFAULT_CONFIDENCE); auto.
  - intros w row line Hrow Hline Hok. cbv zeta.
    rewrite (process_finance_committed _ _ DEFAULT_CONFIDENCE _ row line); auto.
    unfold committed. fields.
    split; [reflexivity | rewrite <- app_assoc; reflexivity].
Qed.

(** C2: the confirmation is never honoured.  The prompt of a finance intent
    under the threshold carries the buttons [confirm_finance_yes] and
    [confirm_finance_no]; pressing "yes" reaches the branch for unknown
    confirmations: the answer is [UnknownConfirmation] and no row is written,
    in every world. *)
Theorem confirm_finance_yes_records_nothing (user_id : pystr) (w : World) :
  handle_callback_query user_id (u "confirm_finance_yes") w =
    (Ok tt, set_log (log w ++ [Replied UnknownConfirmation]) w).
Proof. reflexivity. Qed.

(** Pressing "no" cancels, and writes nothing either. *)
Lemma confirm_finance_no_cancels (user_id : pystr) (w : World) :
  handle_callback_query user_id (u "confirm_finance_no") w =
    (Ok tt, set_log (log w ++ [Replied Cancelled]) w).
Proof. reflexivity. Qed.

(** ** Clearing the table *)

Lemma rows_after_clear (header last : Row) (data : list Row) :
  rows_after_delete 2 (Some (length data + 1)%nat) (header :: data ++ [last])
  = [header; last].
Proof.
  unfold rows_after_delete. simpl default.
  destruct data as [ | r data]; [reflexivity | ].
  replace (length (r :: data) + 1 <? 2)%nat with false
    by (symmetry; apply Nat.ltb_ge; simpl; lia).
  replace (length (r :: data) + 1)%nat with (S (length (r :: data))) by lia.
  simpl take. simpl drop at 1.
  rewrite drop_app_length. reflexivity.
Qed.

(** What the call would remove with the index of the last row as its end. *)
Lemma rows_after_delete_to_last (header : Row) (data : list Row) :
  data <> [] ->
  rows_after_delete 2 (Some (length (header :: data))) (header :: data) = [header].
Proof.
  intros Hdata. unfold rows_after_delete. simpl default.
  destruct data as [ | r data]; [contradiction | ].
  simpl length. simpl Nat.ltb. cbv iota.
  simpl take. simpl drop. rewrite drop_all. reflexivity.
Qed.

(** X26: on a sheet with records, [clear_table] reports success and leaves the
    header and the last record. *)
Lemma clear_table_spares_last_row (w : World) (header last : Row) (data : list Row) :
  sheet w = header :: data ++ [last] ->
  calls_succeed w ->
  clear_table w =
    (Ok true,
     set_cache None None
       (set_sheet [header; last]
          (set_outcomes (tail (tail (outcomes w)))
             (set_log (log w ++ [Called get_all_values true;
                                 Called (delete_rows 2 (Some (length data + 1)%nat)) true])
                w)))).
Proof.
  intros Hsheet Hok. assert (Hok1 := Forall_tail _ _ Hok).
  unfold clear_table, try_except, bind at 1, fetch_all_values, bind at 1.
  rewrite remote_succeeds by exact Hok. unfold gets. fields. rewrite Hsheet.
  replace (1 <? length (header :: data ++ [last]))%nat with true
    by (symmetry; apply Nat.ltb_lt; simpl; rewrite length_app; simpl; lia).
  replace (length (header :: data ++ [last]) - 1)%nat with (length data + 1)%nat
    by (simpl; rewrite length_app; simpl; lia).
  unfold bind at 1, sheet_delete_rows, bind at 1.
  rewrite remote_succeeds by (unfold calls_succeed; fields; exact Hok1).
  unfold modify, bind, invalidate_cache, modify, ret. fields.
  rewrite Hsheet, rows_after_clear, <- app_assoc. reflexivity.
Qed.

(** C4: [clear_table] does not delete every record.  On the sample sheet
    (header and two records) it calls [delete_rows(2, 2)], which removes row
    2 only: the call returns [True], the cache is invalidated, and the sheet
    still holds the last record. *)
Theorem clear_table_leaves_a_record :
  clear_table (Sample.world [] []) =
    (Ok true,
     set_cache None None
       (set_sheet [Sample.header; Sample.deposit]
          (set_log [Called get_all_values true; Called (delete_rows 2 (Some 2%nat)) true]
             (Sample.world [] [])))).
Proof. reflexivity. Qed.

(** ** Search *)

Lemma select_rows_map (keep : Row -> bool) (records : list Row) :
  select_rows (map keep records) records = List.filter keep records.
Proof.
  induction records as [ | row records IH]; simpl; [reflexivity | ].
  rewrite IH. reflexivity.
Qed.

(** The text before the first sign is a part of its own: it does not reach
    the threshold. *)
Lemma split_on_first (sep : N) (before after : pystr) :
  ~ In sep before ->
  split_on sep (before ++ sep :: after) = before :: split_on sep after.
Proof.
  induction before as [ | c before IH]; intros Hnot; simpl.
  - rewrite N.eqb_refl. reflexivity.
  - destruct (N.eqb_spec c sep) as [-> | Hne]; [exfalso; apply Hnot; left; reflexivity | ].
    rewrite IH by (intros Hin; apply Hnot; right; exact Hin). reflexivity.
Qed.

Lemma split_on_absent (sep : N) (s : pystr) : ~ In sep s -> split_on sep s = [s].
Proof.
  induction s as [ | c s IH]; intros Hnot; simpl; [reflexivity | ].
  destruct (N.eqb_spec c sep) as [-> | Hne]; [exfalso; apply Hnot; left; reflexivity | ].
  rewrite IH by (intros Hin; apply Hnot; right; exact Hin). reflexivity.
Qed.

(** A query without a comparison sign is a substring search. *)
Lemma search_without_sign (search_query : pystr) (records : list Row) :
  contains (u ">") search_query = false ->
  contains (u "<") search_query = false ->
  found_records search_query records =
    Ok (List.filter (fun row => contains search_query (lower (row_text row))) records).
Proof.
  intros Hgt Hlt. unfold found_records, search_mask. rewrite Hgt, Hlt. simpl.
  rewrite select_rows_map. reflexivity.
Qed.

Lemma found_records_above (search_query : pystr) (records : list Row)
    (part : pystr) (thresh : Z) :
  contains (u ">") search_query = true ->
  split_on 62 search_query !! 1%nat = Some part ->
  py_int part = Ok thresh ->
  found_records search_query records =
    Ok (List.filter (fun row => amount_gt (c_amount row) thresh) records).
Proof.
  intros Hsign Hpart Hint. unfold found_records, search_mask, list_item.
  rewrite Hsign, Hpart. simpl. rewrite Hint. simpl.
  rewrite select_rows_map. reflexivity.
Qed.

Lemma found_records_below (search_query : pystr) (records : list Row)
    (part : pystr) (thresh : Z) :
  contains (u ">") search_query = false ->
  contains (u "<") search_query = true ->
  split_on 60 search_query !! 1%nat = Some part ->
  py_int part = Ok thresh ->
  found_records search_query records =
    Ok (List.filter (fun row => amount_lt (c_amount row) thresh) records).
Proof.
  intros Hgt Hlt Hpart Hint. unfold found_records, search_mask, list_item.
  rewrite Hgt, Hlt, Hpart. simpl. rewrite Hint. simpl.
  rewrite select_rows_map. reflexivity.
Qed.

(** C3, as the code has it: when [int] reads the part of the query after its
    first [>] (up to the next [>], or to the end) as an integer, the records
    found are exactly those whose amount is above it; in a query without [>],
    the part after the first [<] likewise, for the amounts below.  Nothing
    else of the query, and nothing of the text of the rows, takes part. *)
Theorem threshold_search_is_amount_filter (search_query : pystr) (records : list Row)
    (above : bool) (part : pystr) (thresh : Z) :
  (if above then contains (u ">") search_query = true
   else contains (u ">") search_query = false /\ contains (u "<") search_query = true) ->
  split_on (if above then 62 else 60) search_query !! 1%nat = Some part ->
  py_int part = Ok thresh ->
  found_records search_query records =
    Ok (List.filter
          (fun row => if above then amount_gt (c_amount row) thresh
                      else amount_lt (c_amount row) thresh)
          records).
Proof.
  intros Hsign Hpart Hint. destruct above.
  - apply (found_records_above _ _ part); assumption.
  - destruct Hsign as [Hgt Hlt]. apply (found_records_below _ _ part); assumption.
Qed.

(** The threshold alone, with any text without [>] before it. *)
Lemma search_text_before_threshold (before number : pystr) (records : list Row)
    (thresh : Z) :
  ~ In 62 before -> ~ In 62 number ->
  py_int number = Ok thresh ->
  found_records (before ++ 62 :: number) records =
    Ok (List.filter (fun row => amount_gt (c_amount row) thresh) records).
Proof.
  intros Hbefore Hnumber Hint.
  apply (found_records_above _ _ number); [ | | exact Hint].
  - change (u ">") with [62]. clear. induction before as [ | c before IH].
    + simpl. destruct number; reflexivity.
    + change (contains [62] ((c :: before) ++ 62 :: number))
        with (startswith ((c :: before) ++ 62 :: number) [62]
              || contains [62] (before ++ 62 :: number)).
      rewrite IH. apply orb_true_r.
  - rewrite split_on_first, split_on_absent by assumption. reflexivity.
Qed.

(** What is left after the sign must be the integer and nothing more:
    otherwise [int] raises and no record is found. *)
Lemma search_threshold_unreadable (search_query : pystr) (records : list Row)
    (part : pystr) (e : exn) :
  contains (u ">") search_query = true ->
  split_on 62 search_query !! 1%nat = Some part ->
  py_int part = Raise e ->
  found_records search_query records = Raise e.
Proof.
  intros Hsign Hpart Hint. unfold found_records, search_mask, list_item.
  rewrite Hsign, Hpart. simpl. rewrite Hint. reflexivity.
Qed.

(** ** The classifier *)

Lemma analyze_message_with_ai_answer (text : pystr) (user_context : option (list pystr))
    (w : World) :
  parse_voice_command text = None ->
  let context_lines := prompt_context user_context in
  let ok := next_outcome (outcomes w) in
  let w1 := set_outcomes (tail (outcomes w))
              (set_log (log w ++ [Called (chat_completion context_lines text) ok]) w) in
  analyze_message_with_ai text user_context w =
    (Ok (if ok then
           match json_loads (strip_fence (strip (nlu_answer w context_lines text))) with
           | Ok parsed => parsed
           | Raise JSONDecodeError => parse_apology
           | Raise _ => failure_apology
           end
         else failure_apology),
     w1).
Proof.
  intros Hrouter. cbv zeta.
  unfold analyze_message_with_ai, try_except. rewrite Hrouter.
  unfold bind, remote, gets. destruct (next_outcome (outcomes w)); [ | reflexivity].
  fields. destruct (json_loads _) as [parsed | []]; reflexivity.
Qed.

Lemma analyze_message_with_ai_never_raises (text : pystr)
    (user_context : option (list pystr)) (w : World) :
  exists analysis, fst (analyze_message_with_ai text user_context w) = Ok analysis.
Proof.
  destruct (parse_voice_command text) as [command | ] eqn:Hrouter.
  - unfold analyze_message_with_ai, try_except. rewrite Hrouter. eexists; reflexivity.
  - rewrite analyze_message_with_ai_answer by exact Hrouter. eexists; reflexivity.
Qed.

(** C9, as the code has it: no exception leaves [analyze_message_with_ai];
    an answer that is not JSON gives the clarification with the fixed message
    and no suggestions; an answer that is JSON is returned as [json.loads]
    read it, whatever its fields. *)
Theorem unreadable_answer_is_clarification (text : pystr)
    (user_context : option (list pystr)) (w : World) :
  parse_voice_command text = None ->
  next_outcome (outcomes w) = true ->
  let answer := strip_fence (strip (nlu_answer w (prompt_context user_context) text)) in
  let result := fst (analyze_message_with_ai text user_context w) in
  (exists analysis, result = Ok analysis) /\
  (json_loads answer = Raise JSONDecodeError ->
   result = Ok parse_apology /\
   py_getitem parse_apology (u "type") = Ok (PStr (u "clarification")) /\
   py_getitem parse_apology (u "suggestions") = Ok (PList [])) /\
  (forall parsed, json_loads answer = Ok parsed -> result = Ok parsed).
Proof.
  intros Hrouter Hcall. cbv zeta.
  split; [apply analyze_message_with_ai_never_raises | ].
  rewrite analyze_message_with_ai_answer by exact Hrouter. cbv zeta. rewrite Hcall. fields.
  split.
  - intros Hjson. rewrite Hjson. repeat split; reflexivity.
  - intros parsed Hjson. rewrite Hjson. reflexivity.
Qed.

(** ** Access *)

(** X27: the four handlers that test the allow-list turn a stranger away with one
    message and nothing else. *)
Lemma gated_entry_points_reject (user_id : pystr) (w : World) (r : request) :
  access_denied user_id w = true ->
  match r with
  | Start | ClearTable | Text _ | Voice => True
  | _ => False
  end ->
  dispatch user_id r w = (Ok tt, set_log (log w ++ [Replied AccessDenied]) w).
Proof.
  intros Hdenied Hgated.
  destruct r; try contradiction; simpl;
    [unfold start | unfold clear_table_command | unfold handle_message | unfold handle_voice];
    unfold bind, gets; rewrite Hdenied; reflexivity.
Qed.

End Properties.

(** * Further properties of the code *)

Section Further.
Context `{Externals}.

Ltac fields :=
  cbn [outcomes set_cache set_sheet set_outcomes set_log sheet log now tail
       SHEETS_CACHE CACHE_TIMESTAMP USER_LAST_OPERATIONS USER_CONTEXT context_file
       context_file_torn write_fails_at_open tear_context_file
       ALLOWED_USERS today nlu_answer transcript set_context set_context_file
       set_last_operations set_now fst snd].

(** ** Composition *)

Lemma preserves_ret {A} (P : World -> Prop) (a : A) : preserves P (ret a).
Proof. intros w Hw. exact Hw. Qed.

Lemma preserves_raise {A} (P : World -> Prop) (e : exn) : preserves P (@raise A e).
Proof. intros w Hw. exact Hw. Qed.

Lemma preserves_lift {A} (P : World -> Prop) (r : Res A) : preserves P (lift r).
Proof. intros w Hw. exact Hw. Qed.

Lemma preserves_gets {A} (P : World -> Prop) (f : World -> A) : preserves P (gets f).
Proof. intros w Hw. exact Hw. Qed.

Lemma preserves_bind {A B} (P : World -> Prop) (m : M A) (k : A -> M B) :
  preserves P m -> (forall a, preserves P (k a)) -> preserves P (bind m k).
Proof.
  intros Hm Hk w Hw. unfold bind. specialize (Hm w Hw).
  destruct (m w) as [[a | e] w1]; simpl in *; [apply Hk, Hm | exact Hm].
Qed.

Lemma preserves_try_except {A} (P : World -> Prop) (body : M A) (handler : exn -> M A) :
  preserves P body -> (forall e, preserves P (handler e)) ->
  preserves P (try_except body handler).
Proof.
  intros Hm Hk w Hw. unfold try_except. specialize (Hm w Hw).
  destruct (body w) as [[a | e] w1]; simpl in *; [exact Hm | apply Hk, Hm].
Qed.

Lemma preserves_if {A} (P : World -> Prop) (b : bool) (m1 m2 : M A) :
  preserves P m1 -> preserves P m2 -> preserves P (if b then m1 else m2).
Proof. destruct b; auto. Qed.

(** A handler whose exceptions all end in a message does not raise. *)
Lemma try_except_reply_total (body : M unit) (r : reply) (w : World) :
  fst (try_except body (fun _ => reply_text r) w) = Ok tt.
Proof.
  unfold try_except. destruct (body w) as [[[] | e] w1]; reflexivity.
Qed.

(** ** Coherence of the cache *)

Lemma coherent_log (l : list event) (w : World) : coherent w -> coherent (set_log l w).
Proof. intros Hw. exact Hw. Qed.

Lemma coherent_reply (r : reply) : preserves coherent (reply_text r).
Proof. intros w Hw. exact Hw. Qed.

Lemma coherent_remote (c : call) (e : exn) : preserves coherent (remote c e).
Proof. intros w Hw. exact Hw. Qed.

Lemma coherent_invalidate (w : World) : coherent (snd (invalidate_cache w)).
Proof. intros snapshot Hs. discriminate. Qed.

Lemma coherent_get_cached_records : preserves coherent get_cached_records.
Proof.
  intros w Hw. unfold get_cached_records, bind, gets.
  assert (Hrefresh : coherent (snd (refresh_cache (now w) w))).
  { unfold refresh_cache, fetch_all_records, bind, remote, gets, modify, ret.
    destruct (next_outcome (outcomes w)); fields.
    - intros snapshot [= <-]. reflexivity.
    - exact Hw. }
  destruct (SHEETS_CACHE w) as [records | ] eqn:Hc; [ | exact Hrefresh].
  destruct (CACHE_TIMESTAMP w) as [t | ]; [ | exact Hrefresh].
  destruct (now w - t >? CACHE_TIMEOUT)%Z; [exact Hrefresh | exact Hw].
Qed.

Lemma coherent_save_context : preserves coherent save_context.
Proof.
  intros w Hw. unfold save_context, remote, bind, modify, raise, ret.
  destruct (next_outcome (outcomes w)); fields; [exact Hw | ].
  destruct (write_fails_at_open w); exact Hw.
Qed.

Lemma coherent_update_user_context (user_id : pystr) (op : LastOperation) :
  preserves coherent (update_user_context user_id op).
Proof.
  unfold update_user_context.
  repeat first
    [ apply preserves_bind; [ | intros ? ]
    | apply preserves_if
    | apply preserves_gets | apply preserves_ret | apply preserves_lift
    | apply coherent_remote
    | apply coherent_save_context
    | (intros w Hw; exact Hw) ].
Qed.

Lemma snd_try_except_ret {A} (body : M A) (x : A) (w : World) :
  snd (try_except body (fun _ => ret x) w) = snd (body w).
Proof. unfold try_except. destruct (body w) as [[a | e] w1]; reflexivity. Qed.

Lemma coherent_add_finance_record (data : pyval) (user_id : pystr) :
  preserves coherent (add_finance_record data user_id).
Proof.
  intros w Hw. unfold add_finance_record. rewrite snd_try_except_ret.
  unfold bind at 1, gets. unfold bind at 1, lift.
  destruct (finance_row (today w) data) as [row | e]; [ | exact Hw].
  unfold bind at 1, sheet_append_row, bind at 1, remote.
  destruct (next_outcome (outcomes w)); [ | exact Hw].
  unfold modify at 1. unfold bind at 1, invalidate_cache, modify at 1.
  match goal with |- coherent (snd (?rest ?w2)) =>
    assert (Hrest : preserves coherent rest); [ | apply Hrest ]
  end.
  - repeat first
      [ apply coherent_get_cached_records
      | apply coherent_update_user_context
      | apply preserves_gets | apply preserves_ret
      | apply preserves_bind; [ | intros ? ]
      | (intros w1 Hw1; exact Hw1) ].
  - intros snapshot Hs. discriminate.
Qed.

Lemma coherent_delete_finance_record (row_number : nat) :
  preserves coherent (delete_finance_record row_number).
Proof.
  intros w Hw. unfold delete_finance_record. rewrite snd_try_except_ret.
  unfold bind at 1, sheet_delete_rows, bind at 1, remote.
  destruct (next_outcome (outcomes w)); [ | exact Hw].
  intros snapshot Hs. discriminate.
Qed.

Lemma coherent_clear_table : preserves coherent clear_table.
Proof.
  intros w Hw. unfold clear_table. rewrite snd_try_except_ret.
  unfold bind at 1, fetch_all_values, bind at 1, remote.
  destruct (next_outcome (outcomes w)); [ | exact Hw].
  unfold gets. fields.
  destruct (1 <? length (sheet w))%nat.
  - unfold bind at 1, sheet_delete_rows, bind at 1, remote. fields.
    destruct (next_outcome (tail (outcomes w))); [ | exact Hw].
    intros snapshot Hs. discriminate.
  - intros snapshot Hs. discriminate.
Qed.

Ltac keeps :=
  repeat first
    [ apply coherent_get_cached_records
    | apply coherent_update_user_context
    | apply coherent_add_finance_record
    | apply coherent_delete_finance_record
    | apply coherent_clear_table
    | apply coherent_reply
    | apply coherent_remote
    | apply preserves_gets | apply preserves_ret | apply preserves_lift
    | apply preserves_raise
    | apply preserves_if
    | apply preserves_try_except; [ | intros ? ]
    | apply preserves_bind; [ | intros ? ] ].

Lemma coherent_send_all (replies : list reply) : preserves coherent (send_all replies).
Proof. induction replies as [ | r rest IH]; simpl; [apply preserves_ret | ]. keeps. exact IH. Qed.

Lemma coherent_run_report (what : pystr) (period : option pystr) (user_id : pystr) :
  preserves coherent (run_report what period user_id).
Proof.
  unfold run_report. keeps.
  match goal with |- context [report_body ?a ?b ?c ?d ?e] =>
    destruct (report_body a b c d e) as [sent raised]
  end.
  keeps; [apply coherent_send_all | ]. destruct raised; keeps.
Qed.

Lemma coherent_advanced_search (args : list pystr) : preserves coherent (advanced_search args).
Proof.
  unfold advanced_search. destruct args as [ | arg args]; [apply coherent_reply | ].
  apply preserves_try_except; [ | intros e; apply coherent_reply].
  apply preserves_bind; [apply coherent_reply | intros _].
  apply preserves_bind; [apply coherent_get_cached_records | intros records].
  destruct records as [ | row rows]; [apply coherent_reply | ].
  apply preserves_bind; [apply preserves_lift | intros found].
  destruct found as [ | row' found]; [apply coherent_reply | ].
  apply preserves_bind; [apply preserves_lift | intros text]. apply coherent_reply.
Qed.

Lemma coherent_delete_last : preserves coherent delete_last.
Proof. unfold delete_last. keeps. Qed.

Lemma coherent_handle_voice_command (user_id : pystr) (analysis : pyval) :
  preserves coherent (handle_voice_command user_id analysis).
Proof.
  unfold handle_voice_command, show_analytics, show_context_history, create_backup,
    show_recipients, show_suppliers, show_categories.
  apply preserves_bind; [keeps | intros command].
  apply preserves_bind; [keeps | intros params_text].
  apply preserves_bind; [keeps | intros text].
  repeat (apply preserves_if; try apply coherent_run_report).
  - destruct (search_terms _); [apply coherent_reply | apply coherent_advanced_search].
  - apply preserves_ret.
Qed.

Lemma coherent_process_analysis_result (analysis : pyval) (user_id : pystr) :
  preserves coherent (process_analysis_result analysis user_id).
Proof.
  unfold process_analysis_result.
  apply preserves_bind; [keeps | intros type_].
  apply preserves_if; [apply coherent_handle_voice_command | ].
  keeps.
Qed.

Lemma coherent_analyze_message_with_ai (text : pystr) (user_context : option (list pystr)) :
  preserves coherent (analyze_message_with_ai text user_context).
Proof.
  unfold analyze_message_with_ai. apply preserves_try_except; [ | intros e; keeps].
  destruct (parse_voice_command text); keeps.
  destruct (json_loads _) as [parsed | []]; keeps.
Qed.

Lemma coherent_handle_callback_query (user_id data : pystr) :
  preserves coherent (handle_callback_query user_id data).
Proof.
  unfold handle_callback_query, show_analytics, show_context_history, create_backup,
    show_recipients, show_suppliers, show_categories, edit_last.
  apply preserves_try_except; [ | intros e; keeps].
  repeat (apply preserves_if;
          try apply coherent_run_report; try apply coherent_reply;
          try apply coherent_delete_last; try apply coherent_advanced_search).
  keeps.
Qed.

(** X1: every entry point keeps the cache coherent with the sheet. *)
Theorem dispatch_keeps_cache_coherent (user_id : pystr) (r : request) (w : World) :
  coherent w -> coherent (snd (dispatch user_id r w)).
Proof.
  revert w. change (preserves coherent (dispatch user_id r)).
  destruct r; simpl;
    unfold start, handle_message, handle_voice, clear_table_command,
      show_context_history, show_analytics, create_backup.
  - keeps.
  - apply coherent_advanced_search.
  - apply coherent_run_report.
  - apply coherent_run_report.
  - apply coherent_run_report.
  - keeps.
  - apply preserves_bind; [keeps | intros denied].
    apply preserves_if; [keeps | ].
    apply preserves_bind; [keeps | intros _].
    apply preserves_bind; [keeps | intros ctx].
    apply preserves_bind; [apply coherent_analyze_message_with_ai | intros analysis].
    apply coherent_process_analysis_result.
  - apply preserves_bind; [keeps | intros denied].
    apply preserves_if; [keeps | ].
    apply preserves_try_except; [ | intros e; keeps].
    apply preserves_bind; [keeps | intros _].
    apply preserves_bind; [keeps | intros _].
    apply preserves_bind; [keeps | intros text].
    apply preserves_bind; [keeps | intros _].
    apply preserves_bind; [keeps | intros ctx].
    apply preserves_bind; [apply coherent_analyze_message_with_ai | intros analysis].
    apply coherent_process_analysis_result.
  - apply coherent_handle_callback_query.
Qed.

(** ** What the queries leave alone *)

Lemma same_ledger_refl (w : World) : same_ledger w w.
Proof. repeat split. Qed.

Lemma ledger_reply (w0 : World) (r : reply) : preserves (same_ledger w0) (reply_text r).
Proof. intros w Hw. exact Hw. Qed.

Lemma ledger_remote (w0 : World) (c : call) (e : exn) :
  preserves (same_ledger w0) (remote c e).
Proof. intros w Hw. exact Hw. Qed.

Lemma ledger_get_cached_records (w0 : World) : preserves (same_ledger w0) get_cached_records.
Proof.
  intros w Hw. unfold get_cached_records, bind, gets.
  assert (Hrefresh : same_ledger w0 (snd (refresh_cache (now w) w))).
  { unfold refresh_cache, fetch_all_records, bind, remote, gets, modify, ret.
    destruct (next_outcome (outcomes w)); exact Hw. }
  destruct (SHEETS_CACHE w) as [records | ]; [ | exact Hrefresh].
  destruct (CACHE_TIMESTAMP w) as [t | ]; [ | exact Hrefresh].
  destruct (now w - t >? CACHE_TIMEOUT)%Z; [exact Hrefresh | exact Hw].
Qed.

Lemma ledger_send_all (w0 : World) (replies : list reply) :
  preserves (same_ledger w0) (send_all replies).
Proof.
  induction replies as [ | r rest IH]; simpl; [apply preserves_ret | ].
  apply preserves_bind; [apply ledger_reply | intros _; exact IH].
Qed.

Lemma ledger_run_report (w0 : World) (what : pystr) (period : option pystr)
    (user_id : pystr) :
  preserves (same_ledger w0) (run_report what period user_id).
Proof.
  unfold run_report.
  apply preserves_try_except; [ | intros e; apply ledger_reply].
  apply preserves_bind; [apply ledger_reply | intros _].
  apply preserves_bind; [apply ledger_get_cached_records | intros records].
  apply preserves_bind; [apply preserves_gets | intros now_].
  apply preserves_bind; [apply preserves_gets | intros lines].
  destruct (report_body what period now_ lines records) as [sent raised].
  apply preserves_bind; [apply ledger_send_all | intros _].
  destruct raised; [apply preserves_raise | apply preserves_ret].
Qed.

Lemma ledger_advanced_search (w0 : World) (args : list pystr) :
  preserves (same_ledger w0) (advanced_search args).
Proof.
  unfold advanced_search. destruct args as [ | arg args]; [apply ledger_reply | ].
  apply preserves_try_except; [ | intros e; apply ledger_reply].
  apply preserves_bind; [apply ledger_reply | intros _].
  apply preserves_bind; [apply ledger_get_cached_records | intros records].
  destruct records as [ | row rows]; [apply ledger_reply | ].
  apply preserves_bind; [apply preserves_lift | intros found].
  destruct found as [ | row' found]; [apply ledger_reply | ].
  apply preserves_bind; [apply preserves_lift | intros text]. apply ledger_reply.
Qed.

Lemma ledger_handle_voice_command (w0 : World) (user_id : pystr) (analysis : pyval) :
  preserves (same_ledger w0) (handle_voice_command user_id analysis).
Proof.
  unfold handle_voice_command, show_analytics, show_context_history, create_backup,
    show_recipients, show_suppliers, show_categories.
  apply preserves_bind; [apply preserves_lift | intros command].
  apply preserves_bind; [apply preserves_lift | intros params_text].
  apply preserves_bind; [apply preserves_lift | intros text].
  repeat (apply preserves_if; try apply ledger_run_report).
  - destruct (search_terms _); [apply ledger_reply | apply ledger_advanced_search].
  - apply preserves_ret.
Qed.

Lemma advanced_search_total (args : list pystr) (w : World) :
  fst (advanced_search args w) = Ok tt.
Proof.
  unfold advanced_search. destruct args; [reflexivity | apply try_except_reply_total].
Qed.

(** X2: searches and reports never raise and change no record: the sheet, the
    contexts, the context file and the last operations are as before. *)
Theorem queries_change_no_record (user_id : pystr) (args : list pystr) (w : World) :
  (fst (dispatch user_id (Search args) w) = Ok tt /\
   same_ledger w (snd (dispatch user_id (Search args) w))) /\
  (fst (dispatch user_id History w) = Ok tt /\
   same_ledger w (snd (dispatch user_id History w))) /\
  (fst (dispatch user_id Analytics w) = Ok tt /\
   same_ledger w (snd (dispatch user_id Analytics w))) /\
  (fst (dispatch user_id Backup w) = Ok tt /\
   same_ledger w (snd (dispatch user_id Backup w))).
Proof.
  split; [ | split; [ | split]]; cbn [dispatch]; (split;
    [ first [apply advanced_search_total | apply try_except_reply_total]
    | first [apply ledger_advanced_search | apply ledger_run_report]; apply same_ledger_refl ]).
Qed.

(** ** The router *)

Lemma parse_voice_command_shape (text : pystr) (analysis : pyval) :
  parse_voice_command text = Some analysis ->
  exists command, analysis = voice_command command text /\ In command router_commands.
Proof.
  unfold parse_voice_command, router_commands.
  repeat match goal with
  | |- context [if any_in ?phrases ?t then _ else _] =>
      destruct (any_in phrases t);
        [intros [= <-]; eexists; split; [reflexivity | ];
         first [ left; reflexivity
               | do 1 right; left; reflexivity
               | do 2 right; left; reflexivity
               | do 3 right; left; reflexivity
               | do 4 right; left; reflexivity
               | do 5 right; left; reflexivity
               | do 6 right; left; reflexivity ] | ]
  end.
  discriminate.
Qed.

Lemma any_in_member (phrases : list pystr) (phrase text : pystr) :
  In phrase phrases -> contains phrase text = true -> any_in phrases text = true.
Proof.
  intros Hin Hc. unfold any_in. apply existsb_exists. exists phrase. auto.
Qed.

Lemma voice_command_type (command text : pystr) :
  py_getitem (voice_command command text) (u "type") = Ok (PStr (u "voice_command")).
Proof. reflexivity. Qed.

Lemma analyze_message_with_ai_routed (text : pystr) (user_context : option (list pystr))
    (w : World) (command : pyval) :
  parse_voice_command text = Some command ->
  analyze_message_with_ai text user_context w = (Ok command, w).
Proof.
  intros Hrouter. unfold analyze_message_with_ai, try_except. rewrite Hrouter. reflexivity.
Qed.

Lemma handle_message_routed (user_id text : pystr) (w : World) (command : pyval) :
  parse_voice_command text = Some command ->
  same_ledger w (snd (handle_message user_id text w)).
Proof.
  intros Hrouter.
  destruct (parse_voice_command_shape _ _ Hrouter) as (name & -> & _).
  unfold handle_message, bind at 1, gets.
  destruct (access_denied user_id w); [apply ledger_reply, same_ledger_refl | ].
  unfold bind at 1, reply_text, modify. unfold bind at 1, gets. unfold bind at 1.
  rewrite (analyze_message_with_ai_routed _ _ _ _ Hrouter).
  unfold process_analysis_result, bind at 1, lift at 1. rewrite voice_command_type.
  change (is_str (PStr (u "voice_command")) (u "voice_command")) with true. cbv iota.
  apply ledger_handle_voice_command. exact (same_ledger_refl w).
Qed.

(** X3: a message with the word "поставщик" in it is a command for the router
    ([recipients] or [suppliers]): the language model is not asked (the
    classifier returns the command and leaves the world as it is), and
    [handle_message] records nothing. *)
Theorem supplier_message_is_not_recorded (user_id text : pystr)
    (user_context : option (list pystr)) (w : World) :
  contains (u "поставщик") (lower text) = true ->
  (exists command,
     (command = u "recipients" \/ command = u "suppliers") /\
     analyze_message_with_ai text user_context w = (Ok (voice_command command text), w)) /\
  same_ledger w (snd (handle_message user_id text w)).
Proof.
  intros Hword.
  assert (Hrouter : exists command,
            (command = u "recipients" \/ command = u "suppliers") /\
            parse_voice_command text = Some (voice_command command text)).
  { unfold parse_voice_command.
    match goal with |- context [if any_in ?phrases ?t then _ else _] =>
      destruct (any_in phrases t)
    end.
    - eexists; split; [left; reflexivity | reflexivity].
    - rewrite (any_in_member _ (u "поставщик") (lower text)).
      + eexists; split; [right; reflexivity | reflexivity].
      + do 3 right. left. reflexivity.
      + exact Hword. }
  destruct Hrouter as (command & Hcommand & Hrouter). split.
  - exists command. split; [exact Hcommand | ].
    apply analyze_message_with_ai_routed, Hrouter.
  - apply (handle_message_routed _ _ _ _ Hrouter).
Qed.

(** ** The cache at and past its window *)

(** X4: with rows held, a read returns them untouched as long as the clock is at
    most five minutes past the fetch (the fifth minute included); past that,
    it fetches once and, when the fetch succeeds, holds the rows of the sheet
    with the new time. *)
Theorem cache_window_is_inclusive (w : World) (snapshot : list Row) (t0 : Z) :
  SHEETS_CACHE w = Some snapshot ->
  CACHE_TIMESTAMP w = Some t0 ->
  ((now w - t0 <= CACHE_TIMEOUT)%Z -> get_cached_records w = (Ok snapshot, w)) /\
  ((now w - t0 > CACHE_TIMEOUT)%Z ->
   log (snd (get_cached_records w))
   = log w ++ [Called get_all_records (next_outcome (outcomes w))] /\
   (next_outcome (outcomes w) = true ->
    fst (get_cached_records w) = Ok (tail (sheet w)) /\
    SHEETS_CACHE (snd (get_cached_records w)) = Some (tail (sheet w)) /\
    CACHE_TIMESTAMP (snd (get_cached_records w)) = Some (now w))).
Proof.
  intros Hc Ht. split.
  - intros Hfresh. apply (get_cached_records_fresh _ _ t0); assumption.
  - intros Hstale. unfold get_cached_records, bind, gets. rewrite Hc, Ht.
    destruct (Z.gtb_spec (now w - t0) CACHE_TIMEOUT) as [_ | Hle]; [ | lia].
    unfold refresh_cache, fetch_all_records, bind, remote, gets, modify, ret.
    destruct (next_outcome (outcomes w)); fields.
    + split; [reflexivity | intros _; repeat split; reflexivity].
    + split; [reflexivity | discriminate].
Qed.

(** X5: a fetch that fails raises out of [get_cached_records] and leaves what
    the cache held, rows and time, as it was. *)
Theorem failed_fetch_keeps_the_cache (w : World) :
  next_call_fails w ->
  match SHEETS_CACHE w, CACHE_TIMESTAMP w with
  | Some _, Some t0 => (now w - t0 > CACHE_TIMEOUT)%Z
  | _, _ => True
  end ->
  fst (get_cached_records w) = Raise APIError /\
  SHEETS_CACHE (snd (get_cached_records w)) = SHEETS_CACHE w /\
  CACHE_TIMESTAMP (snd (get_cached_records w)) = CACHE_TIMESTAMP w /\
  log (snd (get_cached_records w)) = log w ++ [Called get_all_records false].
Proof.
  intros [rest Hplan] Hstale.
  assert (Hrefresh :
            refresh_cache (now w) w =
              (Raise APIError,
               set_outcomes (tail (outcomes w))
                 (set_log (log w ++ [Called get_all_records false]) w))).
  { unfold refresh_cache, fetch_all_records, bind, remote. rewrite Hplan. reflexivity. }
  unfold get_cached_records, bind, gets.
  destruct (SHEETS_CACHE w) as [records | ] eqn:Hc;
    [destruct (CACHE_TIMESTAMP w) as [t0 | ] eqn:Ht | ].
  - destruct (Z.gtb_spec (now w - t0) CACHE_TIMEOUT) as [_ | Hle]; [ | lia].
    rewrite Hrefresh. fields. rewrite Hc, Ht. repeat split; reflexivity.
  - rewrite Hrefresh. fields. rewrite Hc, Ht. repeat split; reflexivity.
  - rewrite Hrefresh. fields. rewrite Hc. repeat split; reflexivity.
Qed.

(** ** Failures after the row is written *)

(** X6: the write succeeds and the re-read of the sheet fails: the row is on the
    sheet and the cache is empty, but [add_finance_record] returns [False]
    and stores neither the last operation nor the context line. *)
Theorem add_finance_record_failed_reread (data : pyval) (user_id : pystr) (w : World)
    (row : Row) (rest : list bool) :
  finance_row (today w) data = Ok row ->
  outcomes w = true :: false :: rest ->
  let result := add_finance_record data user_id w in
  fst result = Ok false /\
  sheet (snd result) = sheet w ++ [row] /\
  SHEETS_CACHE (snd result) = None /\
  USER_LAST_OPERATIONS (snd result) = USER_LAST_OPERATIONS w /\
  USER_CONTEXT (snd result) = USER_CONTEXT w /\
  context_file (snd result) = context_file w /\
  log (snd result) = log w ++ [Called (append_row row) true; Called get_all_records false].
Proof.
  intros Hrow Hplan. cbv zeta.
  assert (Heq : add_finance_record data user_id w =
                (Ok false,
                 set_outcomes rest
                   (set_log (log w ++ [Called (append_row row) true;
                                       Called get_all_records false])
                      (set_cache None None (set_sheet (sheet w ++ [row]) w))))).
  { unfold add_finance_record, try_except, bind at 1, gets.
    unfold bind at 1, lift. rewrite Hrow.
    unfold bind at 1, sheet_append_row, bind at 1, remote. rewrite Hplan.
    cbn [next_outcome]. unfold modify at 1. unfold bind at 1, invalidate_cache, modify at 1.
    unfold bind at 1. rewrite get_cached_records_empty by reflexivity. cbv zeta.
    fields. cbn [next_outcome]. unfold ret. fields.
    rewrite <- app_assoc. reflexivity. }
  rewrite Heq. fields. repeat split; reflexivity.
Qed.

Lemma update_user_context_then_save (user_id : pystr) (op : LastOperation) (w : World)
    (line : pystr) :
  context_line (op_data op) = Ok line ->
  update_user_context user_id op w =
    save_context
      (set_context
         (<[user_id := last_n 10 (recent_operations user_id w ++ [line])]> (USER_CONTEXT w))
         w).
Proof.
  intros Hline.
  unfold update_user_context, bind, gets, lift, modify, ret. rewrite Hline.
  set (old := recent_operations user_id w).
  destruct (bool_decide (is_Some (USER_CONTEXT w !! user_id))) eqn:Hknown.
  - rewrite recent_operations_insert. fold old.
    destruct (10 <? length (old ++ [line]))%nat eqn:Hlen; cbv beta iota; fields.
    + rewrite insert_insert_eq. reflexivity.
    + apply Nat.ltb_ge in Hlen. rewrite (last_n_short 10) by exact Hlen. reflexivity.
  - apply bool_decide_eq_false in Hknown.
    assert (Hnone : USER_CONTEXT w !! user_id = None).
    { destruct (USER_CONTEXT w !! user_id) eqn:E; [exfalso; apply Hknown; eauto | reflexivity]. }
    assert (Hold : old = []) by (unfold old, recent_operations; rewrite Hnone; reflexivity).
    rewrite !recent_operations_insert.
    rewrite Hold, !app_nil_l. change (10 <? length [line])%nat with false. cbv beta iota.
    fields. rewrite insert_insert_eq. rewrite (last_n_short 10) by (simpl; lia). reflexivity.
Qed.

Lemma save_context_fails (w : World) :
  next_call_fails w ->
  save_context w =
    (Raise OSError,
     let w1 := set_outcomes (tail (outcomes w))
                 (set_log (log w ++ [Called write_context_file false]) w) in
     if write_fails_at_open w then w1 else tear_context_file w1).
Proof.
  intros Hfail. unfold save_context. rewrite (remote_fails _ _ _ Hfail). reflexivity.
Qed.

(** X7: the row is written and re-read, then the write of the context file
    fails: [add_finance_record] returns [False], although the row is on the
    sheet, the last operation is stored and the context in memory has the new
    line.  The file is as it was only when it is [open] that failed: a write
    that fails later has emptied the file, and what it held is lost. *)
Theorem add_finance_record_failed_context_file (data : pyval) (user_id : pystr)
    (w : World) (row : Row) (line : pystr) (rest : list bool) :
  finance_row (today w) data = Ok row ->
  context_line data = Ok line ->
  outcomes w = true :: true :: false :: rest ->
  let result := add_finance_record data user_id w in
  fst result = Ok false /\
  sheet (snd result) = sheet w ++ [row] /\
  USER_LAST_OPERATIONS (snd result) !! user_id
  = Some {| op_data := data; op_row := length (tail (sheet w ++ [row]));
            op_timestamp := now w |} /\
  recent_operations user_id (snd result)
  = last_n 10 (recent_operations user_id w ++ [line]) /\
  (if write_fails_at_open w
   then context_file (snd result) = context_file w /\
        context_file_torn (snd result) = context_file_torn w
   else context_file (snd result) = None /\
        context_file_torn (snd result) = true).
Proof.
  intros Hrow Hline Hplan. cbv zeta.
  assert (Heq : exists w', add_finance_record data user_id w = (Ok false, w') /\
            sheet w' = sheet w ++ [row] /\
            USER_LAST_OPERATIONS w'
            = <[user_id := {| op_data := data; op_row := length (tail (sheet w ++ [row]));
                              op_timestamp := now w |}]> (USER_LAST_OPERATIONS w) /\
            USER_CONTEXT w'
            = <[user_id := last_n 10 (recent_operations user_id w ++ [line])]>
                (USER_CONTEXT w) /\
            (if write_fails_at_open w
             then context_file w' = context_file w /\
                  context_file_torn w' = context_file_torn w
             else context_file w' = None /\ context_file_torn w' = true)).
  { unfold add_finance_record. unfold try_except, bind at 1, gets.
    unfold bind at 1, lift. rewrite Hrow.
    unfold bind at 1, sheet_append_row, bind at 1, remote. rewrite Hplan.
    cbn [next_outcome]. unfold modify at 1. unfold bind at 1, invalidate_cache, modify at 1.
    unfold bind at 1. rewrite get_cached_records_empty by reflexivity. cbv zeta.
    fields. cbn [next_outcome].
    unfold bind at 1, gets. unfold bind at 1, modify at 1. unfold bind at 1.
    rewrite (update_user_context_then_save _ _ _ line) by exact Hline.
    rewrite save_context_fails by (exists rest; reflexivity).
    unfold ret. cbv zeta. fields.
    destruct (write_fails_at_open w); (eexists; split; [reflexivity | ]); fields;
      (split; [reflexivity | ]); (split; [reflexivity | ]); (split; [reflexivity | ]);
      split; reflexivity. }
  destruct Heq as (w' & -> & Hsheet & Hlast & Hctx & Hfile). fields.
  split; [reflexivity | ]. split; [exact Hsheet | ].
  split; [rewrite Hlast; apply lookup_insert_eq | ].
  split; [ | exact Hfile].
  unfold recent_operations at 1. rewrite Hctx, lookup_insert_eq. reflexivity.
Qed.

Lemma update_user_context_unformattable (user_id : pystr) (op : LastOperation)
    (w : World) (e : exn) :
  context_line (op_data op) = Raise e ->
  update_user_context user_id op w =
    (Raise e,
     if bool_decide (is_Some (USER_CONTEXT w !! user_id)) then w
     else set_context (<[user_id := []]> (USER_CONTEXT w)) w).
Proof.
  intros Hline. unfold update_user_context, bind, gets, lift, modify, ret.
  destruct (bool_decide _); rewrite Hline; reflexivity.
Qed.

(** X8: the intent has the fields of a row but its context line cannot be
    rendered (an amount that does not format as a number): the row is written
    all the same and the last operation stored; [add_finance_record] returns
    [False], the user's list gains no line and the file is not rewritten. *)
Theorem add_finance_record_unformattable_amount (data : pyval) (user_id : pystr)
    (w : World) (row : Row) (e : exn) :
  finance_row (today w) data = Ok row ->
  context_line data = Raise e ->
  calls_succeed w ->
  let result := add_finance_record data user_id w in
  fst result = Ok false /\
  sheet (snd result) = sheet w ++ [row] /\
  USER_LAST_OPERATIONS (snd result) !! user_id
  = Some {| op_data := data; op_row := length (tail (sheet w ++ [row]));
            op_timestamp := now w |} /\
  recent_operations user_id (snd result) = recent_operations user_id w /\
  context_file (snd result) = context_file w /\
  log (snd result) = log w ++ [Called (append_row row) true; Called get_all_records true].
Proof.
  intros Hrow Hline Hok. cbv zeta.
  assert (Hok1 := Forall_tail _ _ Hok).
  assert (Heq : exists w', add_finance_record data user_id w = (Ok false, w') /\
            sheet w' = sheet w ++ [row] /\
            USER_LAST_OPERATIONS w'
            = <[user_id := {| op_data := data; op_row := length (tail (sheet w ++ [row]));
                              op_timestamp := now w |}]> (USER_LAST_OPERATIONS w) /\
            (USER_CONTEXT w' = USER_CONTEXT w \/
             USER_CONTEXT w !! user_id = None /\
             USER_CONTEXT w' = <[user_id := []]> (USER_CONTEXT w)) /\
            context_file w' = context_file w /\
            log w' = log w ++ [Called (append_row row) true; Called get_all_records true]).
  { unfold add_finance_record. unfold try_except, bind at 1, gets.
    unfold bind at 1, lift. rewrite Hrow.
    unfold bind at 1, sheet_append_row, bind at 1. rewrite remote_succeeds by exact Hok.
    unfold modify at 1. unfold bind at 1, invalidate_cache, modify at 1.
    unfold bind at 1. rewrite get_cached_records_empty by reflexivity. cbv zeta.
    fields. rewrite (next_outcome_true _ Hok1).
    unfold bind at 1, gets. unfold bind at 1, modify at 1. unfold bind at 1.
    rewrite (update_user_context_unformattable _ _ _ e) by exact Hline.
    fields. unfold ret.
    destruct (bool_decide (is_Some (USER_CONTEXT w !! user_id))) eqn:Hknown;
      (eexists; split; [reflexivity | ]); fields.
    - split; [reflexivity | ]. split; [reflexivity | ]. split; [left; reflexivity | ].
      split; [reflexivity | rewrite <- app_assoc; reflexivity].
    - apply bool_decide_eq_false in Hknown.
      assert (Hnone : USER_CONTEXT w !! user_id = None).
      { destruct (USER_CONTEXT w !! user_id) eqn:E;
          [exfalso; apply Hknown; eauto | reflexivity]. }
      split; [reflexivity | ]. split; [reflexivity | ].
      split; [right; split; [exact Hnone | reflexivity] | ].
      split; [reflexivity | rewrite <- app_assoc; reflexivity]. }
  destruct Heq as (w' & -> & Hsheet & Hlast & Hctx & Hfile & Hlog). fields.
  split; [reflexivity | ]. split; [exact Hsheet | ].
  split; [rewrite Hlast; apply lookup_insert_eq | ].
  split; [ | split; [exact Hfile | exact Hlog]].
  unfold recent_operations. destruct Hctx as [-> | [Hnone ->]]; [reflexivity | ].
  rewrite lookup_insert_eq, Hnone. reflexivity.
Qed.

(** ** Row numbers *)

Lemma length_tail_snoc {A} (l : list A) (x : A) : length (tail (l ++ [x])) = length l.
Proof. destruct l; simpl; [reflexivity | rewrite length_app; simpl; lia]. Qed.

(** X9: the row number stored with the last operation is the number of rows the
    sheet had before the append: the record itself stands one row further
    down (at that position counted from 0, so at that number plus one counted
    from 1 as the sheet counts). *)
Theorem last_operation_row_is_one_short (data : pyval) (user_id : pystr) (w : World)
    (row : Row) (line : pystr) :
  finance_row (today w) data = Ok row ->
  context_line data = Ok line ->
  calls_succeed w ->
  let w' := snd (add_finance_record data user_id w) in
  exists op,
    USER_LAST_OPERATIONS w' !! user_id = Some op /\
    op_data op = data /\
    op_row op = length (sheet w) /\
    sheet w' !! op_row op = Some row /\
    length (sheet w') = S (op_row op).
Proof.
  intros Hrow Hline Hok. cbv zeta.
  rewrite (add_finance_record_succeeds _ _ _ row line) by assumption.
  unfold committed. fields. eexists. split; [apply lookup_insert_eq | ].
  cbn [op_data op_row]. rewrite length_tail_snoc.
  split; [reflexivity | ]. split; [reflexivity | ].
  split.
  - rewrite lookup_app_r by lia. rewrite Nat.sub_diag. reflexivity.
  - rewrite length_app. simpl. lia.
Qed.

Lemma rows_after_delete_last (rows : list Row) (row : Row) :
  rows_after_delete (length rows + 1) None (rows ++ [row]) = rows.
Proof.
  unfold rows_after_delete. simpl default. rewrite Nat.ltb_irrefl.
  replace (length rows + 1 - 1)%nat with (length rows) by lia.
  rewrite take_app_length.
  replace (length rows + 1)%nat with (length (rows ++ [row]))
    by (rewrite length_app; reflexivity).
  rewrite drop_all. apply app_nil_r.
Qed.

(** X10: [delete_last] right after a successful [add_finance_record] removes the
    row that was appended and nothing else of the sheet; the context line
    and the last operation of the deleted record stay. *)
Theorem delete_last_removes_the_appended_row (data : pyval) (user_id : pystr)
    (w : World) (row : Row) (line : pystr) :
  finance_row (today w) data = Ok row ->
  context_line data = Ok line ->
  calls_succeed w ->
  let w1 := snd (add_finance_record data user_id w) in
  let w2 := snd (delete_last w1) in
  sheet w2 = sheet w /\
  log w2 = log w1 ++ [Called (delete_rows (length (sheet w) + 1) None) true;
                      Replied LastDeleted] /\
  SHEETS_CACHE w2 = None /\
  USER_CONTEXT w2 = USER_CONTEXT w1 /\
  USER_LAST_OPERATIONS w2 = USER_LAST_OPERATIONS w1.
Proof.
  intros Hrow Hline Hok. cbv zeta.
  rewrite (add_finance_record_succeeds _ _ _ row line) by assumption. cbn [snd].
  set (w1 := committed data user_id row line w).
  assert (Hok1 : calls_succeed w1).
  { unfold calls_succeed, w1, committed. fields.
    apply Forall_tail, Forall_tail, Forall_tail, Hok. }
  assert (Heq : delete_last w1 =
            (Ok tt,
             set_log (log w1 ++ [Called (delete_rows (length (sheet w) + 1) None) true;
                                 Replied LastDeleted])
               (set_cache None None
                  (set_sheet (sheet w) (set_outcomes (tail (outcomes w1)) w1))))).
  { unfold delete_last, try_except, bind at 1.
    rewrite (get_cached_records_fresh w1 (tail (sheet w ++ [row])) (now w));
      [ | reflexivity | reflexivity | unfold w1, committed, CACHE_TIMEOUT; fields; lia].
    rewrite length_tail_snoc.
    unfold bind at 1, delete_finance_record, try_except, bind at 1, sheet_delete_rows,
      bind at 1.
    rewrite remote_succeeds by exact Hok1.
    unfold modify, bind, invalidate_cache, modify, ret, reply_text, modify. fields.
    replace (sheet w1) with (sheet w ++ [row]) by reflexivity.
    rewrite rows_after_delete_last, <- app_assoc. reflexivity. }
  rewrite Heq. fields.
  split; [reflexivity | ]. split; [reflexivity | ]. split; [reflexivity | ].
  split; reflexivity.
Qed.

(** X11: a successful [delete_finance_record] of a row of the sheet removes that
    row alone: the rows above keep their places, the rows below move up by
    one, and the cache is emptied. *)
Theorem delete_finance_record_removes_one_row (row_number : nat) (w : World) :
  (1 <= row_number <= length (sheet w))%nat ->
  next_outcome (outcomes w) = true ->
  let result := delete_finance_record row_number w in
  fst result = Ok true /\
  S (length (sheet (snd result))) = length (sheet w) /\
  (forall i, (i < row_number - 1)%nat -> sheet (snd result) !! i = sheet w !! i) /\
  (forall i, (row_number - 1 <= i)%nat -> sheet (snd result) !! i = sheet w !! S i) /\
  SHEETS_CACHE (snd result) = None.
Proof.
  intros Hrange Hcall. cbv zeta.
  assert (Heq : delete_finance_record row_number w =
            (Ok true,
             set_cache None None
               (set_sheet (take (row_number - 1) (sheet w) ++ drop row_number (sheet w))
                  (set_outcomes (tail (outcomes w))
                     (set_log (log w ++ [Called (delete_rows row_number None) true]) w))))).
  { unfold delete_finance_record, try_except, bind at 1, sheet_delete_rows, bind at 1, remote.
    rewrite Hcall. unfold modify, bind, invalidate_cache, modify, ret. fields.
    unfold rows_after_delete. simpl default. rewrite Nat.ltb_irrefl. reflexivity. }
  rewrite Heq. fields.
  split; [reflexivity | ].
  split; [rewrite length_app, length_take, length_drop; lia | ].
  split; [ | split; [ | reflexivity]].
  - intros i Hi. rewrite lookup_app_l by (rewrite length_take; lia).
    apply lookup_take_lt. lia.
  - intros i Hi. rewrite lookup_app_r by (rewrite length_take; lia).
    rewrite length_take, lookup_drop. f_equal. lia.
Qed.

(** X12: when [delete_finance_record] returns [False], nothing has changed but
    the log: the sheet and the cache are as they were. *)
Theorem failed_delete_changes_nothing (row_number : nat) (w : World) :
  fst (delete_finance_record row_number w) = Ok false ->
  same_state w (snd (delete_finance_record row_number w)).
Proof.
  destruct (delete_finance_record row_number w) as [r w'] eqn:Heq. simpl. intros ->.
  unfold delete_finance_record, try_except, bind at 1, sheet_delete_rows, bind at 1,
    remote in Heq.
  destruct (next_outcome (outcomes w)).
  - unfold modify, bind, invalidate_cache, modify, ret in Heq. discriminate.
  - injection Heq as <-. unfold same_state. fields.
    repeat (split; [reflexivity | ]). reflexivity.
Qed.

(** X13: when [clear_table] returns [False], the sheet and the cache are as they
    were: the cache is emptied on success only. *)
Theorem failed_clear_changes_nothing (w : World) :
  fst (clear_table w) = Ok false ->
  same_state w (snd (clear_table w)).
Proof.
  assert (Hsame : forall l o, same_state w (set_outcomes o (set_log l w))).
  { intros l o. unfold same_state. fields.
    repeat (split; [reflexivity | ]). reflexivity. }
  destruct (clear_table w) as [r w'] eqn:Heq. simpl. intros ->.
  unfold clear_table, try_except, bind at 1, fetch_all_values, bind at 1, remote in Heq.
  destruct (next_outcome (outcomes w)).
  - unfold gets in Heq. fields. cbn [sheet set_outcomes set_log] in Heq.
    destruct (1 <? length (sheet w))%nat.
    + unfold bind at 1, sheet_delete_rows, bind at 1, remote in Heq.
      cbn [outcomes set_outcomes set_log] in Heq.
      destruct (next_outcome (tail (outcomes w))).
      * unfold modify, bind, invalidate_cache, modify, ret in Heq. discriminate.
      * injection Heq as <-. apply Hsame.
    + unfold modify, bind, invalidate_cache, modify, ret in Heq. discriminate.
  - injection Heq as <-. apply Hsame.
Qed.

(** X14: on a sheet with the header alone, or with nothing, [clear_table] makes
    no delete call: it reads the rows, empties the cache and returns
    [True]. *)
Theorem clear_table_without_records (w : World) :
  (length (sheet w) <= 1)%nat ->
  next_outcome (outcomes w) = true ->
  clear_table w =
    (Ok true,
     set_cache None None
       (set_outcomes (tail (outcomes w))
          (set_log (log w ++ [Called get_all_values true]) w))).
Proof.
  intros Hlen Hcall.
  unfold clear_table, try_except, bind at 1, fetch_all_values, bind at 1, remote.
  rewrite Hcall. unfold gets. fields.
  replace (1 <? length (sheet w))%nat with false by (symmetry; apply Nat.ltb_ge; lia).
  reflexivity.
Qed.

(** ** The allow-list *)

Lemma split_on_not_empty (sep : N) (s : pystr) : split_on sep s <> [].
Proof.
  destruct s as [ | c s]; simpl; [discriminate | ].
  destruct (c =? sep); [discriminate | ].
  destruct (split_on sep s); discriminate.
Qed.

(** X15: the list read from the environment is never empty, so the test of
    membership always applies: a user is turned away exactly when the id is
    not an entry of the list.  With the variable unset the list is [['']],
    and every user with an id is turned away. *)
Theorem allow_list_is_never_open (value : option pystr) (user_id : pystr) (w : World) :
  ALLOWED_USERS w = allowed_users_from_env value ->
  access_denied user_id w = negb (bool_decide (user_id ∈ allowed_users_from_env value)) /\
  (value = None -> user_id <> [] -> access_denied user_id w = true).
Proof.
  intros Hallowed. unfold access_denied. rewrite Hallowed. split.
  - unfold allowed_users_from_env.
    destruct (split_on 44 (default [] value)) eqn:Hsplit; [ | reflexivity].
    exfalso. exact (split_on_not_empty _ _ Hsplit).
  - intros -> Hid. simpl. apply negb_true_iff, bool_decide_eq_false.
    intros Hin. apply list_elem_of_singleton in Hin. contradiction.
Qed.

(** ** The fence around an answer *)

(** X16: an answer fenced as a JSON code block comes out as the text between the
    fences, whatever that text is. *)
Theorem strip_fence_unwraps_json_block (body : pystr) :
  strip_fence (u "```json" ++ body ++ u "```") = body.
Proof.
  unfold strip_fence.
  change (u "```json") with [96; 96; 96; 106; 115; 111; 110].
  change (u "```") with [96; 96; 96].
  cbn [startswith app N.eqb Pos.eqb andb].
  replace (startswith (body ++ [96; 96; 96]) []) with true by (destruct body; reflexivity).
  unfold slice_between. cbn [drop length].
  rewrite length_app. cbn [length].
  replace (S (S (S (S (S (S (S (length body + 3))))))) - 3 - 7)%nat with (length body) by lia.
  apply take_app_length.
Qed.

(** ** Intents that are neither commands nor finance *)

(** X17: a dictionary of any other type is answered as a clarification: its
    message (or the default one), and at most the first three of its
    suggestions; nothing but the log changes. *)
Theorem other_types_are_clarifications (d : list (pystr * pyval)) (user_id : pystr)
    (w : World) (type_ : pyval) (suggestions : list pyval) :
  dict_get d (u "type") = Some type_ ->
  is_str type_ (u "voice_command") = false ->
  is_str type_ (u "finance") = false ->
  dict_get d (u "suggestions") = Some (PList suggestions) ->
  process_analysis_result (PDict d) user_id w =
    (Ok tt,
     set_log
       (log w ++
        [Replied (Clarify (default (PStr (u "Не понял ваше сообщение."))
                             (dict_get d (u "message")))
                    (take 3 suggestions))])
       w).
Proof.
  intros Htype Hvoice Hfinance Hsuggestions.
  unfold process_analysis_result, bind at 1, lift at 1, py_getitem. rewrite Htype.
  rewrite Hvoice, Hfinance.
  unfold bind at 1, lift at 1, py_get. rewrite Hsuggestions. simpl default.
  unfold bind at 1, lift at 1.
  destruct suggestions as [ | s1 rest]; reflexivity.
Qed.

(** ** Exceptions at the boundary *)

(** X18: the handlers with a catch-all never raise, whatever the sheet, the
    model and the transcription do and whatever the button or the query
    holds. *)
Theorem guarded_handlers_never_raise (user_id data : pystr) (args : list pystr)
    (w : World) :
  fst (handle_voice user_id w) = Ok tt /\
  fst (handle_callback_query user_id data w) = Ok tt /\
  fst (advanced_search args w) = Ok tt /\
  fst (show_analytics user_id None w) = Ok tt /\
  fst (delete_last w) = Ok tt.
Proof.
  split; [ | split; [ | split; [ | split]]].
  - unfold handle_voice, bind at 1, gets.
    destruct (access_denied user_id w); [reflexivity | apply try_except_reply_total].
  - apply try_except_reply_total.
  - apply advanced_search_total.
  - apply try_except_reply_total.
  - apply try_except_reply_total.
Qed.

(** X19: [handle_message] has no catch-all: when the answer of the model is JSON
    without a usable ["type"], the exception of the lookup leaves the
    handler. *)
Theorem handle_message_lets_a_bad_intent_escape (user_id text : pystr) (w : World)
    (parsed : pyval) (e : exn) :
  access_denied user_id w = false ->
  parse_voice_command text = None ->
  next_outcome (outcomes w) = true ->
  json_loads (strip_fence (strip
    (nlu_answer w (prompt_context (USER_CONTEXT w !! user_id)) text))) = Ok parsed ->
  py_getitem parsed (u "type") = Raise e ->
  fst (handle_message user_id text w) = Raise e.
Proof.
  intros Hallowed Hrouter Hcall Hjson Htype.
  unfold handle_message, bind at 1, gets. rewrite Hallowed.
  unfold bind at 1, reply_text, modify. unfold bind at 1, gets. unfold bind at 1.
  rewrite analyze_message_with_ai_answer by exact Hrouter. cbv zeta. fields.
  rewrite Hcall, Hjson.
  unfold process_analysis_result, bind at 1, lift at 1. rewrite Htype. reflexivity.
Qed.

(** ** Restart *)

(** X20: what a successful [add_finance_record] wrote to the context file is what
    the next start of the process loads: the contexts come back as they
    were; the last operations and the cache do not. *)
Theorem restart_restores_the_contexts (data : pyval) (user_id : pystr) (w : World)
    (row : Row) (line : pystr) :
  finance_row (today w) data = Ok row ->
  context_line data = Ok line ->
  calls_succeed w ->
  let w1 := snd (add_finance_record data user_id w) in
  let w2 := snd (startup w1) in
  USER_CONTEXT w2 = USER_CONTEXT w1 /\
  USER_LAST_OPERATIONS w2 = ∅ /\
  SHEETS_CACHE w2 = None /\
  sheet w2 = sheet w1.
Proof.
  intros Hrow Hline Hok. cbv zeta.
  rewrite (add_finance_record_succeeds _ _ _ row line) by assumption.
  unfold startup, bind, modify, load_context, modify, committed. fields.
  split; [reflexivity | ]. split; [reflexivity | ]. split; reflexivity.
Qed.

(** ** What the classifier touches *)

(** X21: [analyze_message_with_ai] returns an intent whatever happens, changes
    nothing but the log and the plan of calls, and makes at most one call:
    a chat completion with the text and at most the five newest context
    lines. *)
Theorem classification_changes_no_state (text : pystr)
    (user_context : option (list pystr)) (w : World) :
  same_state w (snd (analyze_message_with_ai text user_context w)) /\
  (exists analysis, fst (analyze_message_with_ai text user_context w) = Ok analysis) /\
  (log (snd (analyze_message_with_ai text user_context w)) = log w \/
   exists ok,
     log (snd (analyze_message_with_ai text user_context w))
     = log w ++ [Called (chat_completion (prompt_context user_context) text) ok]) /\
  (length (prompt_context user_context) <= 5)%nat /\
  (forall ops, user_context = Some ops ->
     exists older, ops = older ++ prompt_context user_context).
Proof.
  assert (Hsame : forall l o, same_state w (set_outcomes o (set_log l w))).
  { intros l o. unfold same_state. fields.
    repeat (split; [reflexivity | ]). reflexivity. }
  split; [ | split; [apply analyze_message_with_ai_never_raises | split; [ | split]]].
  - destruct (parse_voice_command text) as [command | ] eqn:Hrouter.
    + rewrite (analyze_message_with_ai_routed _ _ _ _ Hrouter). apply (Hsame (log w) (outcomes w)).
    + rewrite analyze_message_with_ai_answer by exact Hrouter. apply Hsame.
  - destruct (parse_voice_command text) as [command | ] eqn:Hrouter.
    + rewrite (analyze_message_with_ai_routed _ _ _ _ Hrouter). left. reflexivity.
    + rewrite analyze_message_with_ai_answer by exact Hrouter. right. eexists. reflexivity.
  - destruct user_context as [ops | ]; simpl; [apply last_n_length | lia].
  - intros ops ->. simpl. unfold last_n. exists (take (length ops - 5) ops).
    symmetry. apply take_drop.
Qed.

(** ** Search on an empty ledger *)

(** X22: with no record on the sheet, a search answers "no data" before it looks
    at the query: even a threshold that does not read as a number is not an
    error then. *)
Theorem search_without_records (args : list pystr) (w : World) :
  args <> [] ->
  SHEETS_CACHE w = None ->
  next_outcome (outcomes w) = true ->
  (length (sheet w) <= 1)%nat ->
  log (snd (advanced_search args w)) =
    log w ++ [Replied (Searching (lower (join (u " ") args)));
              Called get_all_records true; Replied NoData].
Proof.
  intros Hargs Hcache Hcall Hlen.
  destruct args as [ | arg args]; [contradiction | ].
  unfold advanced_search, try_except, bind at 1, reply_text, modify.
  unfold bind at 1. rewrite get_cached_records_empty by exact Hcache. cbv zeta.
  fields. rewrite Hcall.
  replace (tail (sheet w)) with (@nil Row)
    by (destruct (sheet w) as [ | h [ | r rows]]; simpl in *; [reflexivity | reflexivity | lia]).
  unfold reply_text, modify. fields. rewrite <- !app_assoc. reflexivity.
Qed.

(** ** Parameters of a command *)

(** X23: the period taken from a command is either the word for the week,
    and then one of its two forms stands in the text (whatever its case
    there); or it is the word for the month or the name of a month, and then
    that very word stands in the text and neither form of the word for the
    week does. *)
Theorem extracted_period_is_known (text period : pystr) :
  p_period (extract_params_from_voice text) = Some period ->
  (period = u "неделя" /\
   (contains (u "неделя") (lower text) = true \/
    contains (u "неделю") (lower text) = true)) \/
  (In period (u "месяц" :: months) /\
   contains period (lower text) = true /\
   contains (u "неделя") (lower text) = false /\
   contains (u "неделю") (lower text) = false).
Proof.
  unfold extract_params_from_voice. cbn [p_period].
  match goal with |- context [if any_in ?phrases ?t then _ else _] =>
    destruct (any_in phrases t) eqn:Hweek
  end;
    unfold any_in in Hweek; cbn [existsb] in Hweek; rewrite orb_false_r in Hweek.
  - intros [= <-]. left. split; [reflexivity | ].
    apply orb_true_iff in Hweek. exact Hweek.
  - apply orb_false_iff in Hweek. destruct Hweek as [Hweek1 Hweek2].
    match goal with |- context [if any_in ?phrases ?t then _ else _] =>
      destruct (any_in phrases t) eqn:Hmonth
    end.
    + intros [= <-]. right.
      unfold any_in in Hmonth. cbn [existsb] in Hmonth.
      rewrite orb_false_r in Hmonth.
      split; [left; reflexivity | ]. split; [exact Hmonth | ].
      split; [exact Hweek1 | exact Hweek2].
    + intros Hfind. apply find_some in Hfind. destruct Hfind as [Hin Hc]. right.
      split; [right; exact Hin | ]. split; [exact Hc | ].
      split; [exact Hweek1 | exact Hweek2].
Qed.

(** ** Properties kept by every entry point

    A property of the world that does not depend on the log, the plan of
    calls, the cache, the sheet or the last operations, and that
    [update_user_context] keeps for the acting user, is kept by every
    handler. *)
Section Frame.
Variable P : World -> Prop.
Variable user_id : pystr.
Hypothesis P_log : forall l w, P w -> P (set_log l w).
Hypothesis P_outcomes : forall o w, P w -> P (set_outcomes o w).
Hypothesis P_cache : forall c t w, P w -> P (set_cache c t w).
Hypothesis P_sheet : forall s w, P w -> P (set_sheet s w).
Hypothesis P_last : forall m w, P w -> P (set_last_operations m w).
Hypothesis P_update : forall op, preserves P (update_user_context user_id op).

Lemma frame_modify (f : World -> World) :
  (forall w, P w -> P (f w)) -> preserves P (modify f).
Proof. intros Hf w Hw. apply Hf, Hw. Qed.

Lemma frame_reply (r : reply) : preserves P (reply_text r).
Proof. intros w Hw. apply P_log, Hw. Qed.

Lemma frame_remote (c : call) (e : exn) : preserves P (remote c e).
Proof. intros w Hw. apply P_outcomes, P_log, Hw. Qed.

Lemma frame_invalidate : preserves P invalidate_cache.
Proof. intros w Hw. apply P_cache, Hw. Qed.

Ltac frame :=
  repeat first
    [ apply frame_reply | apply frame_remote | apply frame_invalidate
    | apply P_update
    | apply preserves_gets | apply preserves_ret | apply preserves_lift
    | apply preserves_raise
    | apply frame_modify; intros ? ?;
        first [apply P_cache | apply P_sheet | apply P_last]; assumption
    | apply preserves_if
    | apply preserves_try_except; [ | intros ? ]
    | apply preserves_bind; [ | intros ? ] ].

Lemma frame_get_cached_records : preserves P get_cached_records.
Proof.
  unfold get_cached_records.
  apply preserves_bind; [apply preserves_gets | intros now_].
  apply preserves_bind; [apply preserves_gets | intros cache].
  apply preserves_bind; [apply preserves_gets | intros stamp].
  assert (Hrefresh : preserves P (refresh_cache now_)).
  { unfold refresh_cache, fetch_all_records. frame. }
  destruct cache as [records | ]; [ | exact Hrefresh].
  destruct stamp as [t | ]; [ | exact Hrefresh].
  destruct (now_ - t >? CACHE_TIMEOUT)%Z; [exact Hrefresh | apply preserves_ret].
Qed.

Lemma frame_add_finance_record (data : pyval) :
  preserves P (add_finance_record data user_id).
Proof.
  unfold add_finance_record, sheet_append_row.
  apply preserves_try_except; [ | intros e; apply preserves_ret].
  apply preserves_bind; [apply preserves_gets | intros date].
  apply preserves_bind; [apply preserves_lift | intros row].
  apply preserves_bind; [frame | intros _].
  apply preserves_bind; [frame | intros _].
  apply preserves_bind; [apply frame_get_cached_records | intros records].
  frame.
Qed.

Lemma frame_delete_finance_record (row_number : nat) :
  preserves P (delete_finance_record row_number).
Proof. unfold delete_finance_record, sheet_delete_rows. frame. Qed.

Lemma frame_clear_table : preserves P clear_table.
Proof. unfold clear_table, fetch_all_values, sheet_delete_rows. frame. Qed.

Lemma frame_send_all (replies : list reply) : preserves P (send_all replies).
Proof.
  induction replies as [ | r rest IH]; simpl; [apply preserves_ret | ].
  apply preserves_bind; [apply frame_reply | intros _; exact IH].
Qed.

Lemma frame_run_report (what : pystr) (period : option pystr) (reader : pystr) :
  preserves P (run_report what period reader).
Proof.
  unfold run_report.
  apply preserves_try_except; [ | intros e; apply frame_reply].
  apply preserves_bind; [apply frame_reply | intros _].
  apply preserves_bind; [apply frame_get_cached_records | intros records].
  apply preserves_bind; [apply preserves_gets | intros now_].
  apply preserves_bind; [apply preserves_gets | intros lines].
  destruct (report_body what period now_ lines records) as [sent raised].
  apply preserves_bind; [apply frame_send_all | intros _].
  destruct raised; [apply preserves_raise | apply preserves_ret].
Qed.

Lemma frame_advanced_search (args : list pystr) : preserves P (advanced_search args).
Proof.
  unfold advanced_search. destruct args as [ | arg args]; [apply frame_reply | ].
  apply preserves_try_except; [ | intros e; apply frame_reply].
  apply preserves_bind; [apply frame_reply | intros _].
  apply preserves_bind; [apply frame_get_cached_records | intros records].
  destruct records as [ | row rows]; [apply frame_reply | ].
  apply preserves_bind; [apply preserves_lift | intros found].
  destruct found as [ | row' found]; [apply frame_reply | ].
  apply preserves_bind; [apply preserves_lift | intros text]. apply frame_reply.
Qed.

Lemma frame_delete_last : preserves P delete_last.
Proof.
  unfold delete_last.
  apply preserves_try_except; [ | intros e; apply frame_reply].
  apply preserves_bind; [apply frame_get_cached_records | intros records].
  apply preserves_bind; [apply frame_delete_finance_record | intros deleted].
  destruct deleted; apply frame_reply.
Qed.

Lemma frame_handle_voice_command (analysis : pyval) :
  preserves P (handle_voice_command user_id analysis).
Proof.
  unfold handle_voice_command, show_analytics, show_context_history, create_backup,
    show_recipients, show_suppliers, show_categories.
  apply preserves_bind; [apply preserves_lift | intros command].
  apply preserves_bind; [apply preserves_lift | intros params_text].
  apply preserves_bind; [apply preserves_lift | intros text].
  repeat (apply preserves_if; try apply frame_run_report).
  - destruct (search_terms _); [apply frame_reply | apply frame_advanced_search].
  - apply preserves_ret.
Qed.

Lemma frame_process_analysis_result (analysis : pyval) :
  preserves P (process_analysis_result analysis user_id).
Proof.
  unfold process_analysis_result.
  apply preserves_bind; [apply preserves_lift | intros type_].
  apply preserves_if; [apply frame_handle_voice_command | ].
  apply preserves_if.
  - apply preserves_bind; [apply preserves_lift | intros confidence].
    apply preserves_bind; [apply preserves_lift | intros low].
    destruct low.
    + apply preserves_bind; [apply preserves_lift | intros _; apply frame_reply].
    + apply preserves_bind; [apply frame_add_finance_record | intros written].
      destruct written; [ | apply frame_reply].
      apply preserves_bind; [apply preserves_lift | intros _; apply frame_reply].
  - apply preserves_bind; [apply preserves_lift | intros suggestions].
    apply preserves_bind; [apply preserves_lift | intros message].
    apply preserves_if; [ | apply frame_reply].
    apply preserves_bind; [apply preserves_lift | intros shown; apply frame_reply].
Qed.

Lemma frame_analyze_message_with_ai (text : pystr) (user_context : option (list pystr)) :
  preserves P (analyze_message_with_ai text user_context).
Proof.
  unfold analyze_message_with_ai.
  apply preserves_try_except; [ | intros e; apply preserves_ret].
  destruct (parse_voice_command text); [apply preserves_ret | ].
  apply preserves_bind; [apply frame_remote | intros _].
  apply preserves_bind; [apply preserves_gets | intros content].
  destruct (json_loads _) as [parsed | []];
    first [apply preserves_ret | apply preserves_raise].
Qed.

Lemma frame_handle_callback_query (data : pystr) :
  preserves P (handle_callback_query user_id data).
Proof.
  unfold handle_callback_query, show_analytics, show_context_history, create_backup,
    show_recipients, show_suppliers, show_categories, edit_last.
  apply preserves_try_except; [ | intros e; apply frame_reply].
  repeat (apply preserves_if;
          try apply frame_run_report; try apply frame_reply;
          try apply frame_delete_last; try apply frame_advanced_search).
  apply preserves_bind; [apply preserves_lift | intros action].
  apply preserves_bind; [apply preserves_lift | intros choice].
  apply preserves_if.
  - apply preserves_bind; [apply frame_clear_table | intros cleared].
    destruct cleared; apply frame_reply.
  - apply preserves_if; apply frame_reply.
Qed.

Lemma frame_dispatch (r : request) : preserves P (dispatch user_id r).
Proof.
  destruct r; cbn [dispatch];
    unfold start, handle_message, handle_voice, clear_table_command,
      show_context_history, show_analytics, create_backup.
  - apply preserves_bind; [apply preserves_gets | intros denied].
    destruct denied; apply frame_reply.
  - apply frame_advanced_search.
  - apply frame_run_report.
  - apply frame_run_report.
  - apply frame_run_report.
  - apply preserves_bind; [apply preserves_gets | intros denied].
    destruct denied; apply frame_reply.
  - apply preserves_bind; [apply preserves_gets | intros denied].
    destruct denied; [apply frame_reply | ].
    apply preserves_bind; [apply frame_reply | intros _].
    apply preserves_bind; [apply preserves_gets | intros ctx].
    apply preserves_bind; [apply frame_analyze_message_with_ai | intros analysis].
    apply frame_process_analysis_result.
  - apply preserves_bind; [apply preserves_gets | intros denied].
    destruct denied; [apply frame_reply | ].
    apply preserves_try_except; [ | intros e; apply frame_reply].
    apply preserves_bind; [apply frame_reply | intros _].
    apply preserves_bind; [apply frame_remote | intros _].
    apply preserves_bind; [apply preserves_gets | intros text].
    apply preserves_bind; [apply frame_reply | intros _].
    apply preserves_bind; [apply preserves_gets | intros ctx].
    apply preserves_bind; [apply frame_analyze_message_with_ai | intros analysis].
    apply frame_process_analysis_result.
  - apply frame_handle_callback_query.
Qed.

End Frame.

(** What [update_user_context] leaves in memory, however it ends: the
    contexts as they were, or with the user's entry replaced by a list of at
    most ten lines. *)
Lemma update_user_context_contexts (user_id : pystr) (op : LastOperation) (w : World) :
  USER_CONTEXT (snd (update_user_context user_id op w)) = USER_CONTEXT w \/
  exists ops, (length ops <= 10)%nat /\
    USER_CONTEXT (snd (update_user_context user_id op w)) = <[user_id := ops]> (USER_CONTEXT w).
Proof.
  destruct (context_line (op_data op)) as [line | e] eqn:Hline.
  - right. exists (last_n 10 (recent_operations user_id w ++ [line])).
    split; [apply last_n_length | ].
    rewrite (update_user_context_then_save _ _ _ line) by exact Hline.
    unfold save_context, remote, bind, modify, raise, ret. fields.
    destruct (next_outcome (outcomes w)); fields; [reflexivity | ].
    destruct (write_fails_at_open w); reflexivity.
  - rewrite (update_user_context_unformattable _ _ _ e) by exact Hline. fields.
    destruct (bool_decide _); [left; reflexivity | right].
    exists []. split; [simpl; lia | reflexivity].
Qed.

(** X24: no entry point lets a list of context lines grow past ten. *)
Theorem dispatch_keeps_contexts_bounded (user_id : pystr) (r : request) (w : World) :
  contexts_bounded w -> contexts_bounded (snd (dispatch user_id r w)).
Proof.
  revert w. change (preserves contexts_bounded (dispatch user_id r)).
  apply frame_dispatch; try (intros; assumption).
  intros op w Hw other ops.
  destruct (update_user_context_contexts user_id op w) as [-> | (kept & Hkept & ->)].
  - apply Hw.
  - rewrite lookup_insert. destruct (decide (user_id = other)) as [_ | _].
    + intros [= <-]. exact Hkept.
    + apply Hw.
Qed.

(** X25: a request of one user never changes the context lines of another. *)
Theorem dispatch_leaves_other_users_contexts (user_id other : pystr) (r : request)
    (w : World) :
  other <> user_id ->
  USER_CONTEXT (snd (dispatch user_id r w)) !! other = USER_CONTEXT w !! other.
Proof.
  intros Hother.
  assert (Hkeeps : preserves (others_untouched user_id w) (dispatch user_id r)).
  { apply frame_dispatch; try (intros; assumption).
    intros op w1 Hw1 o Ho.
    destruct (update_user_context_contexts user_id op w1) as [-> | (kept & _ & ->)].
    - apply Hw1, Ho.
    - rewrite lookup_insert_ne by congruence. apply Hw1, Ho. }
  apply Hkeeps; [ | exact Hother]. intros o _. reflexivity.
Qed.
End Further.

(** * The properties on the sample data *)

#[local] Existing Instance Plain.externals.

(** C7: the allow-list is not tested on every entry point.  User 6666 is
    not allowed in the sample world; [/start] turns the user away, but
    [/backup] reads the sheet into the cache and sends the report, a search
    answers with the record it finds, and the button [confirm_clear_yes]
    deletes from the sheet. *)
Theorem stranger_reaches_the_ledger :
  access_denied (u "6666") (Sample.world [] []) = true /\
  dispatch (u "6666") Start (Sample.world [] []) =
    (Ok tt, set_log [Replied AccessDenied] (Sample.world [] [])) /\
  dispatch (u "6666") Backup (Sample.world [] []) =
    (Ok tt,
     set_cache (Some [Sample.salary; Sample.deposit]) (Some 1000000%Z)
       (set_log [Replied (Progress (u "backup")); Called get_all_records true;
                 Replied (Report (u "backup"))]
          (Sample.world [] []))) /\
  log (snd (dispatch (u "6666") (Search [u ">50000"]) (Sample.world [] []))) =
    [Replied (Searching (u ">50000")); Called get_all_records true;
     Replied (Found (Plain.text_of_row Sample.deposit))] /\
  sheet (snd (dispatch (u "6666") (Button (u "confirm_clear_yes")) (Sample.world [] []))) =
    [Sample.header; Sample.deposit].
Proof.
  split; [vm_compute; reflexivity | ].
  split; [vm_compute; reflexivity | ].
  split; [vm_compute; reflexivity | ].
  split; vm_compute; reflexivity.
Qed.

Lemma confident_finance_is_recorded_sample :
  let w' := snd (process_analysis_result (Sample.payment Sample.sure) (u "1001")
                   (Sample.world [] [true; true; true])) in
  sheet w' = sheet (Sample.world [] [true; true; true]) ++ [Sample.payment_row] /\
  log w' = log (Sample.world [] [true; true; true])
           ++ [Called (append_row Sample.payment_row) true; Called get_all_records true;
               Called write_context_file true; Replied (Recorded (Sample.payment Sample.sure))] /\
  recent_operations (u "1001") w' =
    last_n 9 (recent_operations (u "1001") (Sample.world [] [true; true; true]))
    ++ [Sample.payment_line] /\
  (length (recent_operations (u "1001") w') <= 10)%nat /\
  (forall other, other <> u "1001" ->
     USER_CONTEXT w' !! other = USER_CONTEXT (Sample.world [] [true; true; true]) !! other) /\
  context_file w' = Some (USER_CONTEXT w').
Proof.
  refine (@confident_finance_is_recorded Plain.externals (Sample.payment Sample.sure)
            (u "1001") (PFloat 0x1.ccccccccccccdp-1) (Sample.world [] [true; true; true])
            Sample.payment_row Sample.payment_line _ _ _ _ _ _).
  - vm_compute. reflexivity.
  - vm_compute. reflexivity.
  - vm_compute. reflexivity.
  - vm_compute. reflexivity.
  - vm_compute. reflexivity.
  - repeat constructor.
Defined.

Lemma missing_confidence_commits_sample :
  py_get (Sample.payment []) (u "confidence") DEFAULT_CONFIDENCE = Ok (PFloat 1) /\
  sheet (snd (process_analysis_result (Sample.payment []) (u "1001") (Sample.world [] [])))
  = [Sample.header; Sample.salary; Sample.deposit; Sample.payment_row] /\
  log (snd (process_analysis_result (Sample.payment []) (u "1001") (Sample.world [] [])))
  = [Called (append_row Sample.payment_row) true; Called get_all_records true;
     Called write_context_file true; Replied (Recorded (Sample.payment []))].
Proof.
  destruct (@missing_confidence_commits Plain.externals
              [ (u "type", Sample.text_cell "finance");
                (u "operation_type", Sample.text_cell "Расход");
                (u "amount", PInt (-30000));
                (u "category", Sample.text_cell "Выплаты учредителям");
                (u "description", Sample.text_cell "Таня");
                (u "comment", Sample.text_cell "") ]
              (u "1001"))
    as (Hdefault & _ & _ & Hcommit).
  - vm_compute. reflexivity.
  - vm_compute. reflexivity.
  - split; [exact Hdefault | ].
    apply (Hcommit (Sample.world [] []) Sample.payment_row Sample.payment_line).
    + vm_compute. reflexivity.
    + vm_compute. reflexivity.
    + constructor.
Defined.

Lemma add_finance_record_failed_write_sample :
  let result := add_finance_record (Sample.payment Sample.sure) (u "1001")
                  (Sample.world [] [false]) in
  fst result = Ok false /\
  log (snd result) = log (Sample.world [] [false])
                     ++ [Called (append_row Sample.payment_row) false] /\
  USER_CONTEXT (snd result) = USER_CONTEXT (Sample.world [] [false]) /\
  context_file (snd result) = context_file (Sample.world [] [false]) /\
  USER_LAST_OPERATIONS (snd result) = USER_LAST_OPERATIONS (Sample.world [] [false]) /\
  SHEETS_CACHE (snd result) = SHEETS_CACHE (Sample.world [] [false]) /\
  CACHE_TIMESTAMP (snd result) = CACHE_TIMESTAMP (Sample.world [] [false]) /\
  sheet (snd result) = sheet (Sample.world [] [false]).
Proof.
  refine (@add_finance_record_failed_write Plain.externals (Sample.payment Sample.sure)
            (u "1001") (Sample.world [] [false]) Sample.payment_row _ _).
  - vm_compute. reflexivity.
  - exists []. reflexivity.
Defined.

Lemma invalidate_then_get_fetches_once_sample :
  let first := get_cached_records (snd (invalidate_cache (Sample.world [] []))) in
  (exists ok, log (snd first) = log (Sample.world [] []) ++ [Called get_all_records ok]) /\
  fetches (log (snd first)) = S (fetches (log (Sample.world [] []))) /\
  forall snapshot, fst first = Ok snapshot ->
    let later := gets_at [2000000; 300999999]%Z (snd first) in
    snapshot = tail (sheet (Sample.world [] [])) /\
    fst later = map (fun _ => Ok snapshot) [2000000; 300999999]%Z /\
    log (snd later) = log (snd first) /\
    fetches (log (snd later)) = fetches (log (snd first)) /\
    SHEETS_CACHE (snd later) = Some snapshot.
Proof.
  refine (invalidate_then_get_fetches_once (Sample.world [] []) [2000000; 300999999]%Z _).
  repeat constructor.
Defined.

Lemma threshold_search_is_amount_filter_sample :
  found_records (lower (join (u " ") [u "Петров"; u ">50000"]))
    [Sample.salary; Sample.deposit]
  = Ok (List.filter (fun row => amount_gt (c_amount row) 50000)
          [Sample.salary; Sample.deposit]).
Proof.
  refine (@threshold_search_is_amount_filter Plain.externals
            (lower (join (u " ") [u "Петров"; u ">50000"]))
            [Sample.salary; Sample.deposit] true (u "50000") 50000%Z _ _ _).
  - vm_compute. reflexivity.
  - vm_compute. reflexivity.
  - vm_compute. reflexivity.
Defined.

(** The query of the specification, [">50000 Петров"]: the text after the
    sign is not an integer, [int] raises, and the search ends in its error
    message, although one record is above 50000. *)
Lemma threshold_with_text_after_it_fails :
  found_records (lower (join (u " ") [u ">50000"; u "Петров"]))
    [Sample.salary; Sample.deposit]
  = Raise ValueError /\
  List.filter (fun row => amount_gt (c_amount row) 50000) [Sample.salary; Sample.deposit]
  = [Sample.deposit] /\
  log (snd (advanced_search [u ">50000"; u "Петров"] (Sample.world [] []))) =
    [Replied (Searching (u ">50000 петров")); Called get_all_records true;
     Replied SearchFailed].
Proof.
  split; [vm_compute; reflexivity | ].
  split; vm_compute; reflexivity.
Qed.

Lemma unreadable_answer_is_clarification_sample :
  fst (analyze_message_with_ai (u "дал Тане лично 30000") None
         (Sample.world (u "не понял") []))
  = Ok parse_apology.
Proof.
  destruct (@unreadable_answer_is_clarification Plain.externals
              (u "дал Тане лично 30000") None (Sample.world (u "не понял") []))
    as (_ & Hmalformed & _).
  - vm_compute. reflexivity.
  - vm_compute. reflexivity.
  - apply Hmalformed. vm_compute. reflexivity.
Defined.

(** An answer that is JSON but has none of the fields of a finance intent is
    returned as it is: the classifier's result is of type [finance], not a
    clarification, and [process_analysis_result] then fails to write it. *)
Lemma answer_without_fields_is_not_checked :
  fst (analyze_message_with_ai (u "дал Тане лично 30000") None
         (Sample.world Sample.bare_finance_answer []))
  = Ok (PDict [(u "type", PStr (u "finance"))]) /\
  PDict [(u "type", PStr (u "finance"))] <> parse_apology /\
  py_getitem (PDict [(u "type", PStr (u "finance"))]) (u "operation_type") = Raise KeyError /\
  log (snd (process_analysis_result (PDict [(u "type", PStr (u "finance"))]) (u "1001")
              (Sample.world Sample.bare_finance_answer [])))
  = [Replied WriteFailed].
Proof.
  split; [vm_compute; reflexivity | ].
  split; [vm_compute; discriminate | ].
  split; vm_compute; reflexivity.
Qed.
(** ** The further properties on the sample data *)

Lemma dispatch_keeps_cache_coherent_sample :
  coherent (Sample.cached 1000000 []) /\
  coherent (snd (dispatch (u "1001") (Button (u "confirm_clear_yes"))
                   (Sample.cached 1000000 []))).
Proof.
  assert (Hcoherent : coherent (Sample.cached 1000000 [])).
  { intros snapshot Hcache. vm_compute in Hcache. injection Hcache as <-.
    vm_compute. reflexivity. }
  split; [exact Hcoherent | ].
  exact (@dispatch_keeps_cache_coherent Plain.externals (u "1001")
           (Button (u "confirm_clear_yes")) (Sample.cached 1000000 []) Hcoherent).
Defined.

Lemma supplier_message_is_not_recorded_sample :
  (exists command,
     (command = u "recipients" \/ command = u "suppliers") /\
     analyze_message_with_ai (u "Оплатил поставщику Интигаму 300000") None
       (Sample.world Sample.payment_answer [])
     = (Ok (voice_command command (u "Оплатил поставщику Интигаму 300000")),
        Sample.world Sample.payment_answer [])) /\
  same_ledger (Sample.world Sample.payment_answer [])
    (snd (handle_message (u "1001") (u "Оплатил поставщику Интигаму 300000")
            (Sample.world Sample.payment_answer []))).
Proof.
  refine (@supplier_message_is_not_recorded Plain.externals (u "1001")
            (u "Оплатил поставщику Интигаму 300000") None
            (Sample.world Sample.payment_answer []) _).
  vm_compute. reflexivity.
Defined.

Lemma cache_window_is_inclusive_sample :
  let w := Sample.cached 300000000 [] in
  ((now w - 0 <= CACHE_TIMEOUT)%Z ->
   get_cached_records w = (Ok [Sample.salary; Sample.deposit], w)) /\
  ((now w - 0 > CACHE_TIMEOUT)%Z ->
   log (snd (get_cached_records w))
   = log w ++ [Called get_all_records (next_outcome (outcomes w))] /\
   (next_outcome (outcomes w) = true ->
    fst (get_cached_records w) = Ok (tail (sheet w)) /\
    SHEETS_CACHE (snd (get_cached_records w)) = Some (tail (sheet w)) /\
    CACHE_TIMESTAMP (snd (get_cached_records w)) = Some (now w))).
Proof.
  refine (cache_window_is_inclusive (Sample.cached 300000000 [])
            [Sample.salary; Sample.deposit] 0%Z _ _).
  - vm_compute. reflexivity.
  - vm_compute. reflexivity.
Defined.

Lemma failed_fetch_keeps_the_cache_sample :
  let w := Sample.cached 300000001 [false] in
  fst (get_cached_records w) = Raise APIError /\
  SHEETS_CACHE (snd (get_cached_records w)) = SHEETS_CACHE w /\
  CACHE_TIMESTAMP (snd (get_cached_records w)) = CACHE_TIMESTAMP w /\
  log (snd (get_cached_records w)) = log w ++ [Called get_all_records false].
Proof.
  refine (failed_fetch_keeps_the_cache (Sample.cached 300000001 [false]) _ _).
  - exists []. reflexivity.
  - vm_compute. reflexivity.
Defined.

Lemma add_finance_record_failed_reread_sample :
  let w := Sample.world [] [true; false] in
  let result := add_finance_record (Sample.payment Sample.sure) (u "1001") w in
  fst result = Ok false /\
  sheet (snd result) = sheet w ++ [Sample.payment_row] /\
  SHEETS_CACHE (snd result) = None /\
  USER_LAST_OPERATIONS (snd result) = USER_LAST_OPERATIONS w /\
  USER_CONTEXT (snd result) = USER_CONTEXT w /\
  context_file (snd result) = context_file w /\
  log (snd result) = log w ++ [Called (append_row Sample.payment_row) true;
                               Called get_all_records false].
Proof.
  refine (@add_finance_record_failed_reread Plain.externals (Sample.payment Sample.sure)
            (u "1001") (Sample.world [] [true; false]) Sample.payment_row [] _ _).
  - vm_compute. reflexivity.
  - reflexivity.
Defined.

Lemma add_finance_record_failed_context_file_sample :
  let w := Sample.saved [true; true; false] in
  let result := add_finance_record (Sample.payment Sample.sure) (u "1001") w in
  fst result = Ok false /\
  sheet (snd result) = sheet w ++ [Sample.payment_row] /\
  USER_LAST_OPERATIONS (snd result) !! u "1001"
  = Some {| op_data := Sample.payment Sample.sure;
            op_row := length (tail (sheet w ++ [Sample.payment_row]));
            op_timestamp := now w |} /\
  recent_operations (u "1001") (snd result)
  = last_n 10 (recent_operations (u "1001") w ++ [Sample.payment_line]) /\
  context_file (snd result) = None /\
  context_file_torn (snd result) = true.
Proof.
  refine (@add_finance_record_failed_context_file Plain.externals
            (Sample.payment Sample.sure) (u "1001") (Sample.saved [true; true; false])
            Sample.payment_row Sample.payment_line [] _ _ _).
  - vm_compute. reflexivity.
  - vm_compute. reflexivity.
  - reflexivity.
Defined.

Lemma add_finance_record_unformattable_amount_sample :
  let w := Sample.world [] [] in
  let result := add_finance_record Sample.payment_as_text (u "1001") w in
  fst result = Ok false /\
  sheet (snd result) = sheet w ++ [Sample.payment_as_text_row] /\
  USER_LAST_OPERATIONS (snd result) !! u "1001"
  = Some {| op_data := Sample.payment_as_text;
            op_row := length (tail (sheet w ++ [Sample.payment_as_text_row]));
            op_timestamp := now w |} /\
  recent_operations (u "1001") (snd result) = recent_operations (u "1001") w /\
  context_file (snd result) = context_file w /\
  log (snd result) = log w ++ [Called (append_row Sample.payment_as_text_row) true;
                               Called get_all_records true].
Proof.
  refine (@add_finance_record_unformattable_amount Plain.externals Sample.payment_as_text
            (u "1001") (Sample.world [] []) Sample.payment_as_text_row ValueError _ _ _).
  - vm_compute. reflexivity.
  - vm_compute. reflexivity.
  - constructor.
Defined.

Lemma last_operation_row_is_one_short_sample :
  let w := Sample.world [] [] in
  let w' := snd (add_finance_record (Sample.payment Sample.sure) (u "1001") w) in
  exists op,
    USER_LAST_OPERATIONS w' !! u "1001" = Some op /\
    op_data op = Sample.payment Sample.sure /\
    op_row op = length (sheet w) /\
    sheet w' !! op_row op = Some Sample.payment_row /\
    length (sheet w') = S (op_row op).
Proof.
  refine (@last_operation_row_is_one_short Plain.externals (Sample.payment Sample.sure)
            (u "1001") (Sample.world [] []) Sample.payment_row Sample.payment_line _ _ _).
  - vm_compute. reflexivity.
  - vm_compute. reflexivity.
  - constructor.
Defined.

Lemma delete_last_removes_the_appended_row_sample :
  let w := Sample.world [] [] in
  let w1 := snd (add_finance_record (Sample.payment Sample.sure) (u "1001") w) in
  let w2 := snd (delete_last w1) in
  sheet w2 = sheet w /\
  log w2 = log w1 ++ [Called (delete_rows (length (sheet w) + 1) None) true;
                      Replied LastDeleted] /\
  SHEETS_CACHE w2 = None /\
  USER_CONTEXT w2 = USER_CONTEXT w1 /\
  USER_LAST_OPERATIONS w2 = USER_LAST_OPERATIONS w1.
Proof.
  refine (@delete_last_removes_the_appended_row Plain.externals
            (Sample.payment Sample.sure) (u "1001") (Sample.world [] [])
            Sample.payment_row Sample.payment_line _ _ _).
  - vm_compute. reflexivity.
  - vm_compute. reflexivity.
  - constructor.
Defined.

Lemma delete_finance_record_removes_one_row_sample :
  let w := Sample.world [] [] in
  let result := delete_finance_record 2 w in
  fst result = Ok true /\
  S (length (sheet (snd result))) = length (sheet w) /\
  (forall i, (i < 2 - 1)%nat -> sheet (snd result) !! i = sheet w !! i) /\
  (forall i, (2 - 1 <= i)%nat -> sheet (snd result) !! i = sheet w !! S i) /\
  SHEETS_CACHE (snd result) = None.
Proof.
  refine (delete_finance_record_removes_one_row 2 (Sample.world [] []) _ _).
  - simpl. lia.
  - reflexivity.
Defined.

Lemma failed_delete_changes_nothing_sample :
  same_state (Sample.world [] [false])
    (snd (delete_finance_record 2 (Sample.world [] [false]))).
Proof.
  refine (failed_delete_changes_nothing 2 (Sample.world [] [false]) _).
  vm_compute. reflexivity.
Defined.

Lemma failed_clear_changes_nothing_sample :
  same_state (Sample.world [] [true; false])
    (snd (clear_table (Sample.world [] [true; false]))).
Proof.
  refine (failed_clear_changes_nothing (Sample.world [] [true; false]) _).
  vm_compute. reflexivity.
Defined.

Lemma clear_table_without_records_sample :
  let w := set_sheet [Sample.header] (Sample.world [] []) in
  clear_table w =
    (Ok true,
     set_cache None None
       (set_outcomes (tail (outcomes w))
          (set_log (log w ++ [Called get_all_values true]) w))).
Proof.
  refine (clear_table_without_records (set_sheet [Sample.header] (Sample.world [] [])) _ _).
  - simpl. lia.
  - reflexivity.
Defined.

Lemma allow_list_is_never_open_sample :
  access_denied (u "6666") Sample.unconfigured
  = negb (bool_decide (u "6666" ∈ allowed_users_from_env None)) /\
  (@None pystr = None -> u "6666" <> [] ->
   access_denied (u "6666") Sample.unconfigured = true).
Proof.
  refine (allow_list_is_never_open None (u "6666") Sample.unconfigured _).
  reflexivity.
Defined.

Lemma other_types_are_clarifications_sample :
  process_analysis_result (PDict Sample.clarification) (u "1001") (Sample.world [] []) =
    (Ok tt,
     set_log
       (log (Sample.world [] []) ++
        [Replied (Clarify (default (PStr (u "Не понял ваше сообщение."))
                             (dict_get Sample.clarification (u "message")))
                    (take 3 [Sample.text_cell "1000"; Sample.text_cell "2000";
                             Sample.text_cell "3000"; Sample.text_cell "4000"]))])
       (Sample.world [] [])).
Proof.
  refine (@other_types_are_clarifications Plain.externals Sample.clarification (u "1001")
            (Sample.world [] []) (Sample.text_cell "clarification")
            [Sample.text_cell "1000"; Sample.text_cell "2000";
             Sample.text_cell "3000"; Sample.text_cell "4000"] _ _ _ _).
  - vm_compute. reflexivity.
  - vm_compute. reflexivity.
  - vm_compute. reflexivity.
  - vm_compute. reflexivity.
Defined.

Lemma handle_message_lets_a_bad_intent_escape_sample :
  fst (handle_message (u "1001") (u "привет") (Sample.world (u "{}") [])) = Raise KeyError.
Proof.
  refine (@handle_message_lets_a_bad_intent_escape Plain.externals (u "1001") (u "привет")
            (Sample.world (u "{}") []) (PDict []) KeyError _ _ _ _ _).
  - vm_compute. reflexivity.
  - vm_compute. reflexivity.
  - reflexivity.
  - vm_compute. reflexivity.
  - vm_compute. reflexivity.
Defined.

Lemma restart_restores_the_contexts_sample :
  let w := Sample.world [] [] in
  let w1 := snd (add_finance_record (Sample.payment Sample.sure) (u "1001") w) in
  let w2 := snd (startup w1) in
  USER_CONTEXT w2 = USER_CONTEXT w1 /\
  USER_LAST_OPERATIONS w2 = ∅ /\
  SHEETS_CACHE w2 = None /\
  sheet w2 = sheet w1.
Proof.
  refine (@restart_restores_the_contexts Plain.externals (Sample.payment Sample.sure)
            (u "1001") (Sample.world [] []) Sample.payment_row Sample.payment_line _ _ _).
  - vm_compute. reflexivity.
  - vm_compute. reflexivity.
  - constructor.
Defined.

Lemma search_without_records_sample :
  let w := set_sheet [Sample.header] (Sample.world [] []) in
  log (snd (advanced_search [u "Петров"] w)) =
    log w ++ [Replied (Searching (lower (join (u " ") [u "Петров"])));
              Called get_all_records true; Replied NoData].
Proof.
  refine (@search_without_records Plain.externals [u "Петров"]
            (set_sheet [Sample.header] (Sample.world [] [])) _ _ _ _).
  - discriminate.
  - reflexivity.
  - reflexivity.
  - simpl. lia.
Defined.

Lemma extracted_period_is_known_sample :
  (u "июль" = u "неделя" /\
   (contains (u "неделя") (lower (u "Покажи расходы за Июль")) = true \/
    contains (u "неделю") (lower (u "Покажи расходы за Июль")) = true)) \/
  (In (u "июль") (u "месяц" :: months) /\
   contains (u "июль") (lower (u "Покажи расходы за Июль")) = true /\
   contains (u "неделя") (lower (u "Покажи расходы за Июль")) = false /\
   contains (u "неделю") (lower (u "Покажи расходы за Июль")) = false).
Proof.
  refine (@extracted_period_is_known Plain.externals (u "Покажи расходы за Июль")
            (u "июль") _).
  vm_compute. reflexivity.
Defined.

Lemma dispatch_keeps_contexts_bounded_sample :
  contexts_bounded Sample.busy /\
  contexts_bounded (snd (dispatch (u "1001") (Text (u "дал Тане лично 30000")) Sample.busy)).
Proof.
  assert (Hbounded : contexts_bounded Sample.busy).
  { intros user_id ops Hlookup.
    change (USER_CONTEXT Sample.busy)
      with (<[u "2002" := [u "Касса: 60,000 ₽ (-)"]]>
              ({[u "1001" := replicate 10 Sample.payment_line]} : gmap pystr (list pystr)))
      in Hlookup.
    apply lookup_insert_Some in Hlookup as [[_ <-] | [_ Hlookup]].
    - simpl. lia.
    - apply lookup_singleton_Some in Hlookup as [_ <-]. simpl. lia. }
  split; [exact Hbounded | ].
  exact (@dispatch_keeps_contexts_bounded Plain.externals (u "1001")
           (Text (u "дал Тане лично 30000")) Sample.busy Hbounded).
Defined.

Lemma dispatch_leaves_other_users_contexts_sample :
  USER_CONTEXT (snd (dispatch (u "1001") (Text (u "дал Тане лично 30000")) Sample.busy))
    !! u "2002"
  = USER_CONTEXT Sample.busy !! u "2002".
Proof.
  refine (@dispatch_leaves_other_users_contexts Plain.externals (u "1001") (u "2002")
            (Text (u "дал Тане лично 30000")) Sample.busy _).
  intros Hsame. vm_compute in Hsame. discriminate Hsame.
Defined.

Lemma clear_table_spares_last_row_sample :
  let w := Sample.world [] [] in
  clear_table w =
    (Ok true,
     set_cache None None
       (set_sheet [Sample.header; Sample.deposit]
          (set_outcomes (tail (tail (outcomes w)))
             (set_log (log w ++ [Called get_all_values true;
                                 Called (delete_rows 2 (Some (length [Sample.salary] + 1)%nat))
                                   true])
                w)))).
Proof.
  refine (clear_table_spares_last_row (Sample.world [] []) Sample.header Sample.deposit
            [Sample.salary] _ _).
  - reflexivity.
  - constructor.
Defined.

Lemma gated_entry_points_reject_sample :
  dispatch (u "6666") (Text (u "дал Тане лично 30000")) (Sample.world [] []) =
    (Ok tt, set_log (log (Sample.world [] []) ++ [Replied AccessDenied]) (Sample.world [] [])).
Proof.
  refine (@gated_entry_points_reject Plain.externals (u "6666") (Sample.world [] [])
            (Text (u "дал Тане лично 30000")) _ _).
  - vm_compute. reflexivity.
  - exact I.
Defined.

Lemma process_finance_below_sample :
  process_analysis_result (Sample.payment Sample.unsure) (u "1001") (Sample.world [] []) =
    (Ok tt,
     set_log (log (Sample.world [] []) ++ [Replied (ConfirmPrompt (Sample.payment Sample.unsure))])
       (Sample.world [] [])).
Proof.
  refine (@process_finance_below Plain.externals (Sample.payment Sample.unsure) (u "1001")
            (PFloat 0x1p-1) (Sample.world [] []) _ _ _ _).
  - vm_compute. reflexivity.
  - vm_compute. reflexivity.
  - vm_compute. reflexivity.
  - vm_compute. reflexivity.
Defined.
